(** * ethereum/transactions.py: transactions, signing and sender recovery

    A shallow embedding of [ethereum.transactions.Transaction] and a
    verification of its construction checks, of [sign], of the lazily
    computed [sender], of [intrinsic_gas_used] and of [creates].

    Conventions.
    - The numeric fields are declared with rlp's [big_endian_int], the
      unsigned integer of the codec, and the constructor serialises the
      whole object before it returns: they are [N].  Where the source
      subtracts, the guard above the subtraction keeps the Python result
      non-negative, so [N]'s subtraction agrees with it.  [//] is [N.div].
    - Byte strings are [list byte].  The module is written for Python 2
      byte strings: it spells the same values with and without the [b]
      prefix (['\0' * 20] next to [b''], [''] next to [b'\x00' * 32]), so
      every string literal of the source is a byte string here.
    - A method that mutates [self] and may raise is a function from the
      object to an outcome and the object as the method left it, so that
      the state after an exception can be stated too.
    - The codec, the digest, the curve primitives, the address derivations
      and the gas constants live in other modules (rlp, bitcoin,
      ethereum.utils, ethereum.opcodes).  They are the fields of the
      [Collaborators] interface and every result holds for all of them. *)

From Stdlib Require Import NArith ZArith String List Bool Lia.
From Stdlib Require Import Strings.Byte.
Import ListNotations.
Open Scope N_scope.

Set Implicit Arguments.

(** ** Byte strings and Python values *)

Definition bytes := list byte.

Fixpoint bytes_eqb (a b : bytes) : bool :=
  match a, b with
  | [], [] => true
  | x :: a', y :: b' => Byte.eqb x y && bytes_eqb a' b'
  | _, _ => false
  end.

(** The [key] argument of [sign]: the source compares it with the
    integer [0] and with byte strings, so it is either. *)
Inductive pyval :=
| PInt (z : Z)
| PBytes (b : bytes).

(** An element of a list handed to [rlp.encode] without a sedes. *)
Inductive item :=
| IInt (n : N)
| IBytes (b : bytes).

(** ** Exceptions, outcomes and the method monad *)

Inductive exn :=
| InvalidTransaction (msg : string)
| AssertionError
| TypeError
| Exception.

Inductive outcome (A : Type) :=
| Return (a : A)
| Raise (e : exn).
Arguments Return {A} a.
Arguments Raise {A} e.

(** ** The transaction object

    The nine serialised fields, then the two attributes the methods
    maintain: [network_id] and the sender cache [_sender] ([None] until a
    sender is computed or assigned).  The list [logs], which only the
    bloom methods read, is left out. *)
Record Transaction := mkTransaction {
  nonce : N;
  gasprice : N;
  startgas : N;
  to : bytes;
  value : N;
  data : bytes;
  v : N;
  r : N;
  s : N;
  network_id : option N;
  _sender : option bytes
}.

Definition with_network_id (x : option N) (t : Transaction) : Transaction :=
  mkTransaction (nonce t) (gasprice t) (startgas t) (to t) (value t) (data t)
                (v t) (r t) (s t) x (_sender t).

Definition with_sender (x : option bytes) (t : Transaction) : Transaction :=
  mkTransaction (nonce t) (gasprice t) (startgas t) (to t) (value t) (data t)
                (v t) (r t) (s t) (network_id t) x.

Definition with_vrs (v' r' s' : N) (t : Transaction) : Transaction :=
  mkTransaction (nonce t) (gasprice t) (startgas t) (to t) (value t) (data t)
                v' r' s' (network_id t) (_sender t).

(** A method: the object before, the outcome and the object after. *)
Definition M (A : Type) := Transaction -> outcome A * Transaction.

Definition ret {A} (a : A) : M A := fun t => (Return a, t).

Definition raise {A} (e : exn) : M A := fun t => (Raise e, t).

Definition bind {A B} (m : M A) (k : A -> M B) : M B :=
  fun t =>
    match m t with
    | (Return a, t') => k a t'
    | (Raise e, t') => (Raise e, t')
    end.

Definition get : M Transaction := fun t => (Return t, t).

Definition modify (f : Transaction -> Transaction) : M unit :=
  fun t => (Return tt, f t).

(** [assert c] *)
Definition assert (c : bool) : M unit :=
  if c then ret tt else raise AssertionError.

Declare Scope method_scope.
Delimit Scope method_scope with method.
Notation "x <- c ;; k" := (bind c (fun x => k))
  (at level 100, c at next level, right associativity) : method_scope.
Notation "c ;; k" := (bind c (fun _ => k))
  (at level 100, right associativity) : method_scope.
Open Scope method_scope.

(** ** Module constants *)

(** Modelled from the spec: [utils.TT256] is imported from ethereum.utils,
    which is not part of the sources at hand; the data model bounds the
    numeric fields by "strictly less than 2^256". *)
Definition TT256 : N := 2 ^ 256.

Definition secpk1n : N :=
  115792089237316195423570985008687907852837564279074904382605163141518161494337.

Definition null_address : bytes := repeat xff 20.

(** ** The collaborators *)

Class Collaborators := {
  (** [opcodes.GTXCOST], [opcodes.GTXDATAZERO], [opcodes.GTXDATANONZERO] *)
  GTXCOST : N;
  GTXDATAZERO : N;
  GTXDATANONZERO : N;
  (** [bitcoin.N], the order of the curve; primed, as [N] is the type of
      the unsigned integers here *)
  N' : N;
  (** [utils.normalize_address(x, allow_blank=True)]; [None] when it raises *)
  normalize_address : bytes -> option bytes;
  (** [big_endian_int.serialize] *)
  int_to_big_endian : N -> bytes;
  (** the RLP encoding of a list of serialised items *)
  encode_raw : list bytes -> bytes;
  (** [utils.sha3] *)
  sha3 : bytes -> bytes;
  (** [utils.big_endian_to_int], as [sign] applies it to [network_id] *)
  big_endian_to_int : N -> item;
  (** [bitcoin.encode_privkey(key, 'bin')] *)
  encode_privkey : bytes -> bytes;
  (** [utils.ecsign(rawhash, key)] *)
  ecsign : bytes -> bytes -> N * N * N;
  (** [utils.ecrecover_to_pub(rawhash, v, r, s)] *)
  ecrecover_to_pub : bytes -> N -> N -> N -> bytes;
  (** [utils.privtoaddr] *)
  privtoaddr : bytes -> bytes;
  (** [utils.mk_contract_address(sender, nonce)] *)
  mk_contract_address : bytes -> N -> bytes
}.

Section Transactions.

Context `{Collaborators}.

(** *** Encodings *)

(** [rlp.infer_sedes(self).serialize(self)]: the nine fields, each
    serialised by its declared sedes. *)
Definition serialize (t : Transaction) : list bytes :=
  [ int_to_big_endian (nonce t); int_to_big_endian (gasprice t);
    int_to_big_endian (startgas t); to t; int_to_big_endian (value t);
    data t; int_to_big_endian (v t); int_to_big_endian (r t);
    int_to_big_endian (s t) ].

(** [x[:-3]] *)
Definition drop_last3 {A} (l : list A) : list A :=
  firstn (length l - 3) l.

(** [rlp.encode] of a list whose sedes are inferred: an integer goes
    through [big_endian_int], a byte string is taken as it is. *)
Definition infer_serialize (x : item) : bytes :=
  match x with
  | IInt n => int_to_big_endian n
  | IBytes b => b
  end.

Definition rlp_encode (l : list item) : bytes :=
  encode_raw (map infer_serialize l).

(** [UnsignedTransaction = Transaction.exclude(['v', 'r', 's'])]: the six
    fields it keeps, serialised. *)
Definition unsigned_fields (t : Transaction) : list bytes :=
  [ int_to_big_endian (nonce t); int_to_big_endian (gasprice t);
    int_to_big_endian (startgas t); to t; int_to_big_endian (value t);
    data t ].

(** [rlp.encode(self, UnsignedTransaction)] *)
Definition rlp_encode_unsigned (t : Transaction) : bytes :=
  encode_raw (unsigned_fields t).

(** [rlp.encode(rlp.infer_sedes(self).serialize(self)[:-3] + [x, '', ''])] *)
Definition rlp_encode_protected (t : Transaction) (x : item) : bytes :=
  rlp_encode (map IBytes (drop_last3 (serialize t)) ++ [x; IBytes []; IBytes []]).

(** [Transaction.hash] *)
Definition hash (t : Transaction) : bytes :=
  sha3 (encode_raw (serialize t)).

(** *** intrinsic_gas_used *)

Definition count_zero_bytes (d : bytes) : N :=
  N.of_nat (count_occ Byte.byte_eq_dec d x00).

Definition intrinsic_gas_used_of (d : bytes) : N :=
  let num_zero_bytes := count_zero_bytes d in
  let num_non_zero_bytes := N.of_nat (length d) - num_zero_bytes in
  GTXCOST + GTXDATAZERO * num_zero_bytes + GTXDATANONZERO * num_non_zero_bytes.

Definition intrinsic_gas_used (t : Transaction) : N :=
  intrinsic_gas_used_of (data t).

(** *** __init__

    The constructor ends by logging the first characters of [self.hash];
    the log line has no part in the object that is built. *)

Definition init (nonce gasprice startgas : N) (to : bytes) (value : N)
    (data : bytes) (v r s : N) : outcome Transaction :=
  match normalize_address to with
  | None => Raise Exception
  | Some to =>
    if negb ((length to =? 20)%nat || (length to =? 0)%nat) then
      Raise AssertionError
    else
      let self := mkTransaction nonce gasprice startgas to value data v r s
                                None None in
      if (TT256 <=? gasprice) || (TT256 <=? startgas) ||
         (TT256 <=? value) || (TT256 <=? nonce) then
        Raise (InvalidTransaction "Values way too high!")
      else if startgas <? intrinsic_gas_used self then
        Raise (InvalidTransaction "Startgas too low")
      else
        Return self
  end.

(** *** sender *)

(** [x in (27, 28)] *)
Definition in_27_28 (x : N) : bool := (x =? 27) || (x =? 28).

(** [((self.v - 1) // 2) - 17] *)
Definition network_id_of_v (v : N) : N := (v - 1) / 2 - 17.

(** [self.v - self.network_id * 2 - 8] *)
Definition vee_of_v (v : N) : N := v - network_id_of_v v * 2 - 8.

(** [x[-20:]] *)
Definition last20 (x : bytes) : bytes := skipn (length x - 20) x.

(** The two failures of the signature checks. *)
Definition invalid_v : exn := InvalidTransaction "Invalid V value".
Definition invalid_rs : exn := InvalidTransaction "Invalid signature values!".
Definition zero_pub : exn :=
  InvalidTransaction "Invalid signature (zero privkey cannot sign)".

(** The first half of the [else] branch: classify [v], set [network_id],
    give the parity and the hash to recover from. *)
Definition classify_v : M (N * bytes) :=
  self <- get ;;
  if in_27_28 (v self) then
    modify (with_network_id None) ;;
    ret (v self, sha3 (rlp_encode_unsigned self))
  else if 37 <=? v self then
    modify (with_network_id (Some (network_id_of_v (v self)))) ;;
    let vee := vee_of_v (v self) in
    assert (in_27_28 vee) ;;
    ret (vee, sha3 (rlp_encode_protected self (IInt (network_id_of_v (v self)))))
  else
    raise invalid_v.

(** The body of [if not self._sender:]; it leaves the address in the
    cache and gives it back. *)
Definition recover_sender : M bytes :=
  self <- get ;;
  if (r self =? 0) && (s self =? 0) then
    modify (with_network_id (Some (v self))) ;;
    modify (with_sender (Some null_address)) ;;
    ret null_address
  else
    p <- classify_v ;;
    let '(vee, sighash) := p in
    if (N' <=? r self) || (N' <=? s self) || (r self =? 0) || (s self =? 0) then
      raise invalid_rs
    else
      let pub := ecrecover_to_pub sighash vee (r self) (s self) in
      if bytes_eqb pub (repeat x00 64) then
        raise zero_pub
      else
        let a := last20 (sha3 pub) in
        modify (with_sender (Some a)) ;;
        ret a.

(** [self._sender] taken as a condition: [None] and the empty string are
    false. *)
Definition cached (t : Transaction) : bool :=
  match _sender t with
  | Some (_ :: _) => true
  | _ => false
  end.

(** The [sender] property: a cached non-empty address is returned as it
    is; otherwise the recovery runs. *)
Definition sender : M bytes :=
  self <- get ;;
  match _sender self with
  | Some (b :: a) => ret (b :: a)
  | _ => recover_sender
  end.

(** The [sender] setter. *)
Definition set_sender (value : option bytes) : M unit :=
  modify (with_sender value).

(** *** sign *)

(** [key in (0, '', b'\x00' * 32, '0' * 64)] *)
Definition is_zero_key (key : pyval) : bool :=
  match key with
  | PInt z => (z =? 0)%Z
  | PBytes b =>
      bytes_eqb b [] || bytes_eqb b (repeat x00 32) || bytes_eqb b (repeat x30 64)
  end.

Definition zero_privkey : exn := InvalidTransaction "Zero privkey cannot sign".

(** The hash that [sign] signs.  The chain identifier is an unsigned
    integer here; a negative one would fail the assertion as 0 does. *)
Definition rawhash_of (network_id : option N) : M bytes :=
  self <- get ;;
  match network_id with
  | None => ret (sha3 (rlp_encode_unsigned self))
  | Some c =>
      assert ((1 <=? c) && (c <? 2 ^ 63 - 18)) ;;
      ret (sha3 (rlp_encode_protected self (big_endian_to_int c)))
  end.

(** [if len(key) == 64: key = encode_privkey(key, 'bin')]; [len] of an
    integer is a [TypeError]. *)
Definition binary_key (key : pyval) : M bytes :=
  match key with
  | PInt _ => raise TypeError
  | PBytes b => if (length b =? 64)%nat then ret (encode_privkey b) else ret b
  end.

Definition sign (key : pyval) (network_id : option N) : M unit :=
  if is_zero_key key then raise zero_privkey
  else
    rawhash <- rawhash_of network_id ;;
    key <- binary_key key ;;
    let '(v0, r0, s0) := ecsign rawhash key in
    modify (with_vrs v0 r0 s0) ;;
    (match network_id with
     | None => ret tt
     | Some c => modify (fun t => with_vrs (v t + (8 + c * 2)) (r t) (s t) t)
     end) ;;
    set_sender (Some (privtoaddr key)).

(** *** creates *)

(** [self.to in (b'', '\0' * 20)] *)
Definition to_is_blank (t : Transaction) : bool :=
  bytes_eqb (to t) [] || bytes_eqb (to t) (repeat x00 20).

(** A method that falls off its end returns [None]. *)
Definition creates : M (option bytes) :=
  self <- get ;;
  if to_is_blank self then
    a <- sender ;;
    ret (Some (mk_contract_address a (nonce self)))
  else
    ret None.

(** *** Views used in the statements *)

(** The outcomes of the recovery once the signature checks are passed. *)
Definition after_recovery (pub : bytes) : outcome bytes :=
  if bytes_eqb pub (repeat x00 64) then Raise zero_pub
  else Return (last20 (sha3 pub)).

(** The values of [v] the recovery accepts. *)
Definition v_recognised (x : N) : Prop := x = 27 \/ x = 28 \/ 37 <= x.

(** The parity and the hash handed to the recovery primitive. *)
Definition recovery_parity (t : Transaction) : N :=
  if in_27_28 (v t) then v t else vee_of_v (v t).

Definition recovery_hash (t : Transaction) : bytes :=
  if in_27_28 (v t) then sha3 (rlp_encode_unsigned t)
  else sha3 (rlp_encode_protected t (IInt (network_id_of_v (v t)))).

(** The value [classify_v] leaves in [network_id] when it does not reject
    [v]. *)
Definition network_id_after (t : Transaction) : option N :=
  if in_27_28 (v t) then None else Some (network_id_of_v (v t)).

(** The key [sign] signs with: a key of 64 characters is decoded first. *)
Definition key_used (k : bytes) : bytes :=
  if (length k =? 64)%nat then encode_privkey k else k.

(** The hash [sign] computes when its assertion holds. *)
Definition signing_hash (t : Transaction) (network_id : option N) : bytes :=
  match network_id with
  | None => sha3 (rlp_encode_unsigned t)
  | Some c => sha3 (rlp_encode_protected t (big_endian_to_int c))
  end.

(** What [sign] adds to the parity. *)
Definition v_offset (network_id : option N) : N :=
  match network_id with
  | None => 0
  | Some c => 8 + c * 2
  end.

(** The chain identifiers [sign] accepts. *)
Definition valid_network_id (network_id : option N) : Prop :=
  match network_id with
  | None => True
  | Some c => 1 <= c < 2 ^ 63 - 18
  end.

(** The object [sign] leaves. *)
Definition signed (t : Transaction) (k : bytes) (network_id : option N)
  : Transaction :=
  let '(v0, r0, s0) := ecsign (signing_hash t network_id) (key_used k) in
  with_sender (Some (privtoaddr (key_used k)))
    (with_vrs (v0 + v_offset network_id) r0 s0 t).

End Transactions.

(** ** The rest of the module

    Equality and hashing, the two low-S checks, the dictionary views and
    the [contract] helper.  Two more helpers of other modules come in:
    [utils.big_endian_to_int] read on a byte string, as [__hash__] uses
    it, and [rlp.utils.encode_hex]. *)

(** What [__eq__] may be compared with: a transaction, or anything else. *)
Inductive pyobj :=
| OTransaction (t : Transaction)
| OOther (x : pyval).

(** The values a dictionary view holds: integers and strings. *)
Inductive dval :=
| DInt (n : N)
| DBytes (b : bytes).

(** A dictionary with string keys: the pairs in insertion order, no key
    twice. *)
Definition dict := list (string * dval).

(** [d[k]], absent when the key is. *)
Fixpoint dict_get (d : dict) (k : string) : option dval :=
  match d with
  | [] => None
  | (k', x) :: d' => if String.eqb k k' then Some x else dict_get d' k
  end.

(** [d[k] = x] *)
Fixpoint dict_set (d : dict) (k : string) (x : dval) : dict :=
  match d with
  | [] => [(k, x)]
  | (k', y) :: d' =>
      if String.eqb k k' then (k', x) :: d' else (k', y) :: dict_set d' k x
  end.

(** [x or ''] for a string [x]: an empty [x] is false and gives ['']. *)
Definition or_empty (x : bytes) : bytes :=
  match x with
  | [] => []
  | _ :: _ => x
  end.

Section Rest.

Context `{Collaborators}.

Variable bytes_to_int : bytes -> N.
Variable encode_hex : bytes -> bytes.

(** [isinstance(other, self.__class__) and self.hash == other.hash] *)
Definition __eq__ (self : Transaction) (other : pyobj) : bool :=
  match other with
  | OTransaction o => bytes_eqb (hash self) (hash o)
  | OOther _ => false
  end.

Definition __ne__ (self : Transaction) (other : pyobj) : bool :=
  negb (__eq__ self other).

(** [utils.big_endian_to_int(self.hash)] *)
Definition __hash__ (self : Transaction) : N :=
  bytes_to_int (hash self).

Definition invalid_s : exn := InvalidTransaction "Invalid signature S value!".

Definition check_low_s_metropolis : M unit :=
  self <- get ;;
  if N' / 2 <? s self then raise invalid_s else ret tt.

Definition check_low_s_homestead : M unit :=
  self <- get ;;
  if (N' / 2 <? s self) || (s self =? 0) then raise invalid_s else ret tt.

(** [for name, _ in self.__class__.fields: d[name] = getattr(self, name)] *)
Definition fields_dict (self : Transaction) : dict :=
  let d := [] in
  let d := dict_set d "nonce" (DInt (nonce self)) in
  let d := dict_set d "gasprice" (DInt (gasprice self)) in
  let d := dict_set d "startgas" (DInt (startgas self)) in
  let d := dict_set d "to" (DBytes (to self)) in
  let d := dict_set d "value" (DInt (value self)) in
  let d := dict_set d "data" (DBytes (data self)) in
  let d := dict_set d "v" (DInt (v self)) in
  let d := dict_set d "r" (DInt (r self)) in
  dict_set d "s" (DInt (s self)).

Definition to_dict : M dict :=
  self <- get ;;
  let d := fields_dict self in
  a <- sender ;;
  let d := dict_set d "sender" (DBytes a) in
  self <- get ;;
  ret (dict_set d "hash" (DBytes (encode_hex (hash self)))).

(** [d[k] = f(d[k])] for a key that holds a string; the view below
    applies it to such keys only. *)
Definition update_entry (f : bytes -> bytes) (d : dict) (k : string) : dict :=
  match dict_get d k with
  | Some (DBytes b) => dict_set d k (DBytes (f b))
  | _ => d
  end.

Definition log_dict : M dict :=
  d <- to_dict ;;
  let d := update_entry (fun x => encode_hex (or_empty x)) d "sender" in
  let d := update_entry encode_hex d "to" in
  ret (update_entry encode_hex d "data").

(** [contract]: a transaction without the [to] argument. *)
Definition contract (nonce gasprice startgas endowment : N) (code : bytes)
    (v r s : N) : outcome Transaction :=
  init nonce gasprice startgas [] endowment code v r s.

(** What the constructor checks, as a property of an object. *)
Definition well_formed (t : Transaction) : Prop :=
  (length (to t) = 20 \/ length (to t) = 0)%nat /\
  nonce t < TT256 /\ gasprice t < TT256 /\ startgas t < TT256 /\
  value t < TT256 /\ intrinsic_gas_used t <= startgas t.

(** The nine stored fields of two objects agree. *)
Definition same_fields (a b : Transaction) : Prop :=
  nonce a = nonce b /\ gasprice a = gasprice b /\ startgas a = startgas b /\
  to a = to b /\ value a = value b /\ data a = data b /\
  v a = v b /\ r a = r b /\ s a = s b.

(** [1 <= network_id < 2**63 - 18], for a chain identifier that is given. *)
Definition network_id_ok (network_id : option N) : bool :=
  match network_id with
  | None => true
  | Some c => (1 <=? c) && (c <? 2 ^ 63 - 18)
  end.

(** The cost of one byte of data. *)
Definition byte_gas (b : byte) : N :=
  if Byte.eqb b x00 then GTXDATAZERO else GTXDATANONZERO.

End Rest.

(** ** Sample collaborators

    An executable instance of the interface, to run the methods on concrete
    transactions.  The integer codec, the RLP list encoding and the
    hexadecimal key decoding are the real ones; the gas constants are those
    of the protocol and the curve order is [secpk1n].  The digest and the
    curve primitives are deterministic stand-ins of the right shape, not
    cryptography: no result below depends on what they compute. *)
Module Sample.

Definition byte_of_N (n : N) : byte :=
  match Byte.of_N (n mod 256) with
  | Some b => b
  | None => x00
  end.

Fixpoint be_digits (fuel : nat) (n : N) (acc : bytes) : bytes :=
  match fuel with
  | O => acc
  | S fuel' =>
      if n =? 0 then acc else be_digits fuel' (n / 256) (byte_of_N n :: acc)
  end.

(** The shortest big-endian byte string of [n]; empty for 0. *)
Definition to_big_endian (n : N) : bytes :=
  be_digits (N.to_nat (N.size n)) n [].

(** The number a byte string spells in base 256. *)
Definition big_endian (b : bytes) : N :=
  fold_left (fun acc x => acc * 256 + Byte.to_N x) b 0.

Definition rlp_length_prefix (n offset : N) : bytes :=
  if n <? 56 then [byte_of_N (offset + n)]
  else
    let l := to_big_endian n in
    byte_of_N (offset + 55 + N.of_nat (length l)) :: l.

Definition rlp_item (b : bytes) : bytes :=
  match b with
  | [x] => if Byte.to_N x <? 128 then [x] else rlp_length_prefix 1 128 ++ b
  | _ => rlp_length_prefix (N.of_nat (length b)) 128 ++ b
  end.

Definition rlp_list (l : list bytes) : bytes :=
  let payload := concat (map rlp_item l) in
  rlp_length_prefix (N.of_nat (length payload)) 192 ++ payload.

(** [n] left-padded with zero bytes, or cut, to [k] bytes. *)
Definition fixed_width (k : nat) (n : N) : bytes :=
  let b := to_big_endian n in
  skipn (length b - k) (repeat x00 (k - length b) ++ b).

(** Stand-in digest: 32 bytes computed from the input. *)
Definition digest (b : bytes) : bytes :=
  fixed_width 32 ((big_endian b * 1000003 + N.of_nat (length b) + 7) mod 2 ^ 256).

Fixpoint dec_digits (fuel : nat) (n : N) (acc : bytes) : bytes :=
  match fuel with
  | O => acc
  | S fuel' =>
      let acc' := byte_of_N (48 + n mod 10) :: acc in
      if n / 10 =? 0 then acc' else dec_digits fuel' (n / 10) acc'
  end.

(** [big_endian_to_int] reads a byte string as a number.  Given an
    integer, Python 2's [str_to_bytes] first turns it into its decimal
    text, and it is that text which is read: 1 becomes 49. *)
Definition misread_int (c : N) : item :=
  IInt (big_endian (dec_digits (N.to_nat (N.size c)) c [])).

Definition hex_val (b : byte) : N :=
  let n := Byte.to_N b in
  if (48 <=? n) && (n <=? 57) then n - 48
  else if (97 <=? n) && (n <=? 102) then n - 87
  else if (65 <=? n) && (n <=? 70) then n - 55
  else 0.

Fixpoint unhex (b : bytes) : bytes :=
  match b with
  | h :: l :: rest => byte_of_N (16 * hex_val h + hex_val l) :: unhex rest
  | _ => []
  end.

(** Stand-in signature: a parity in 27, 28 and two scalars in the range
    from 1 to the curve order less one. *)
Definition sample_sign (rawhash key : bytes) : N * N * N :=
  let h := big_endian rawhash in
  let k := big_endian key in
  (27 + (h + k) mod 2, 1 + (h + k) mod (secpk1n - 1), 1 + (h * k + 1) mod (secpk1n - 1)).

(** Stand-in recovery: 64 bytes computed from the four arguments. *)
Definition sample_recover (rawhash : bytes) (vee r s : N) : bytes :=
  fixed_width 64 (1 + big_endian rawhash + vee + r * 3 + s * 5).

Definition address_of_key (key : bytes) : bytes :=
  last20 (digest key).

Definition contract_address (sender : bytes) (nonce : N) : bytes :=
  last20 (digest (rlp_list [sender; to_big_endian nonce])).

Definition normalize (x : bytes) : option bytes :=
  if (length x =? 20)%nat || (length x =? 0)%nat then Some x else None.

Definition collaborators : Collaborators :=
  {| GTXCOST := 21000;
     GTXDATAZERO := 4;
     GTXDATANONZERO := 68;
     N' := secpk1n;
     normalize_address := normalize;
     int_to_big_endian := to_big_endian;
     encode_raw := rlp_list;
     sha3 := digest;
     big_endian_to_int := misread_int;
     encode_privkey := unhex;
     ecsign := sample_sign;
     ecrecover_to_pub := sample_recover;
     privtoaddr := address_of_key;
     mk_contract_address := contract_address |}.

(** An unsigned transfer to the address of twenty 0x11 bytes. *)
Definition tx0 : Transaction :=
  mkTransaction 0 1 21000 (repeat x11 20) 0 [] 0 0 0 None None.

(** [v = 37] with [r = 0] and [s = 1]: the chain identifier 1 is read off
    [v] before the signature values are found invalid. *)
Definition tx_bad_rs : Transaction :=
  mkTransaction 0 1 21000 (repeat x11 20) 0 [] 37 0 1 None None.

(** An unsigned transaction to the address of 20 zero bytes. *)
Definition tx_zero_to : Transaction :=
  mkTransaction 5 1 21000 (repeat x00 20) 0 [] 0 0 0 None None.

(** A raw private key of 32 bytes. *)
Definition key1 : bytes := repeat x01 32.

(** An unsigned transaction whose sender was assigned through the setter. *)
Definition tx_assigned : Transaction :=
  with_sender (Some (repeat x22 20)) tx0.

End Sample.


(** ** Paired collaborators

    The sample collaborators with a signing and a recovery that fit
    together the way the curve primitives do: the public key recovered
    from a signature is the one of the key that signed, and the address of
    a key is the last 20 bytes of the digest of its public key.  The
    helper applied to the chain identifier hands it back. *)
Module Paired.

Definition scalar (key : bytes) : N :=
  1 + Sample.big_endian key mod (secpk1n - 1).

Definition public_key (key : bytes) : bytes :=
  Sample.fixed_width 64 (scalar key).

Definition paired_sign (rawhash key : bytes) : N * N * N :=
  let h := Sample.big_endian rawhash in
  (27 + h mod 2, 1 + h mod (secpk1n - 1), scalar key).

Definition paired_recover (rawhash : bytes) (vee r s : N) : bytes :=
  Sample.fixed_width 64 s.

Definition paired_address (key : bytes) : bytes :=
  last20 (Sample.digest (public_key key)).

Definition collaborators : Collaborators :=
  {| GTXCOST := 21000;
     GTXDATAZERO := 4;
     GTXDATANONZERO := 68;
     N' := secpk1n;
     normalize_address := Sample.normalize;
     int_to_big_endian := Sample.to_big_endian;
     encode_raw := Sample.rlp_list;
     sha3 := Sample.digest;
     big_endian_to_int := IInt;
     encode_privkey := Sample.unhex;
     ecsign := paired_sign;
     ecrecover_to_pub := paired_recover;
     privtoaddr := paired_address;
     mk_contract_address := Sample.contract_address |}.

(** Lower-case hexadecimal text. *)
Definition hex_digit (n : N) : byte :=
  Sample.byte_of_N (if n <? 10 then 48 + n else 87 + n).

Definition hex (b : bytes) : bytes :=
  flat_map (fun x => [hex_digit (Byte.to_N x / 16); hex_digit (Byte.to_N x mod 16)]) b.

(** A transaction with a legacy [v] and small signature scalars. *)
Definition tx_legacy : Transaction :=
  mkTransaction 0 1 21000 (repeat x11 20) 0 [] 27 5 7 None None.

(** A private key as 64 hexadecimal characters. *)
Definition hex_key : bytes := repeat x31 64.

End Paired.

(** * Properties *)

Lemma bytes_eqb_eq (a b : bytes) : bytes_eqb a b = true <-> a = b.
Proof.
  revert b; induction a as [|x a IH]; intros [|y b]; simpl;
    try (split; [discriminate | congruence]); try tauto.
  rewrite andb_true_iff, IH.
  split.
  - intros [Hxy ->]. f_equal. now apply Byte.byte_dec_bl.
  - intros [= -> ->]. split; [now apply Byte.byte_dec_lb | reflexivity].
Qed.

Section Properties.

Context `{Collaborators}.

(** Without a cached address, [sender] is the recovery. *)
Lemma sender_uncached (t : Transaction) :
  cached t = false -> sender t = recover_sender t.
Proof.
  unfold cached, sender, bind, get.
  destruct (_sender t) as [[|b a]|]; intros Hc; try reflexivity; discriminate.
Qed.

(** With a cached address, [sender] returns it and touches nothing. *)
Lemma sender_cached (t : Transaction) (a : bytes) :
  _sender t = Some a -> a <> [] -> sender t = (Return a, t).
Proof.
  unfold sender, bind, get. intros -> Ha.
  destruct a as [|b a]; [congruence | reflexivity].
Qed.

(** The parity computed from a replay-protected [v] is 27 for an odd [v]
    and 28 for an even one. *)
Lemma vee_of_v_cases (x : N) :
  37 <= x -> vee_of_v x = 27 \/ vee_of_v x = 28.
Proof.
  unfold vee_of_v, network_id_of_v. intros Hx.
  pose proof (N.div_mod (x - 1) 2 ltac:(lia)) as Hd.
  pose proof (N.mod_lt (x - 1) 2 ltac:(lia)) as Hm.
  remember ((x - 1) / 2) as q. remember ((x - 1) mod 2) as m.
  lia.
Qed.

Lemma in_27_28_spec (x : N) : in_27_28 x = true <-> x = 27 \/ x = 28.
Proof.
  unfold in_27_28. rewrite orb_true_iff, !N.eqb_eq. tauto.
Qed.

(** ** C4: the null signature *)

(** C4, as amended.  For a transaction with [r = 0] and [s = 0], reading
    [sender] involves no public key recovery.  When no sender is cached
    yet, it sets [network_id] to the raw [v], caches and returns the null
    address of twenty 0xFF bytes; a sender that is already cached (by an
    earlier read or by the setter) is returned as it is and nothing is
    set.  Neither right-hand side names a collaborator: whatever the
    recovery primitive is, it has no part in the result. *)
Theorem sender_null_signature (t : Transaction) :
  r t = 0 -> s t = 0 ->
  (cached t = false ->
   sender t =
     (Return (repeat xff 20),
      with_sender (Some (repeat xff 20)) (with_network_id (Some (v t)) t))) /\
  (forall a, _sender t = Some a -> a <> [] -> sender t = (Return a, t)).
Proof.
  intros Hr Hs. split.
  - intros Hc. rewrite (sender_uncached _ Hc).
    unfold recover_sender, bind, get, modify, ret. rewrite Hr, Hs. reflexivity.
  - intros a Ha Hne. now apply sender_cached.
Qed.

Lemma v_recognised_dec (x : N) :
  v_recognised x <-> in_27_28 x = true \/ (37 <=? x) = true.
Proof.
  unfold v_recognised. rewrite in_27_28_spec, N.leb_le. tauto.
Qed.

Lemma v_recognised_or_not (x : N) : v_recognised x \/ ~ v_recognised x.
Proof.
  rewrite v_recognised_dec.
  destruct (in_27_28 x), (37 <=? x); intuition discriminate.
Qed.

(** What [classify_v] does, case by case. *)
Lemma classify_v_accepts (t : Transaction) :
  v_recognised (v t) ->
  classify_v t =
    (Return (recovery_parity t, recovery_hash t),
     with_network_id (network_id_after t) t).
Proof.
  intros Hv. unfold classify_v, recovery_parity, recovery_hash,
    network_id_after, bind, get, modify, ret.
  destruct (in_27_28 (v t)) eqn:E27; [reflexivity|].
  apply v_recognised_dec in Hv. destruct Hv as [Hv|Hv]; [congruence|].
  rewrite Hv. unfold assert.
  apply N.leb_le in Hv.
  assert (Hi : in_27_28 (vee_of_v (v t)) = true)
    by (apply in_27_28_spec; now apply vee_of_v_cases).
  rewrite Hi. reflexivity.
Qed.

Lemma classify_v_rejects (t : Transaction) :
  ~ v_recognised (v t) -> classify_v t = (Raise invalid_v, t).
Proof.
  intros Hv. unfold classify_v, bind, get, raise.
  destruct (in_27_28 (v t)) eqn:E27.
  - exfalso. apply Hv, v_recognised_dec. now left.
  - destruct (37 <=? v t) eqn:E37; [|reflexivity].
    exfalso. apply Hv, v_recognised_dec. now right.
Qed.

(** ** C6: the parity of a replay-protected [v] *)

(** C6. For every [v >= 37], with the chain identifier
    [((v - 1) div 2) - 17], the parity [v - chain_id * 2 - 8] is 27 or 28;
    the two values computed over the unsigned integers are those of the
    formulas over the integers; and no transaction makes [sender] fail
    with the assertion error of that branch. *)
Theorem vee_always_27_or_28 (x : N) :
  37 <= x ->
  (vee_of_v x = 27 \/ vee_of_v x = 28) /\
  Z.of_N (network_id_of_v x) = ((Z.of_N x - 1) / 2 - 17)%Z /\
  Z.of_N (vee_of_v x) = (Z.of_N x - ((Z.of_N x - 1) / 2 - 17) * 2 - 8)%Z /\
  (forall t, v t = x -> fst (sender t) <> Raise AssertionError).
Proof.
  intros Hx. split; [now apply vee_of_v_cases|].
  assert (Hq : ((Z.of_N x - 1) / 2 = Z.of_N ((x - 1) / 2))%Z).
  { pose proof (N.div_mod (x - 1) 2 ltac:(lia)) as Hd.
    pose proof (N.mod_lt (x - 1) 2 ltac:(lia)) as Hm.
    remember ((x - 1) / 2) as q. remember ((x - 1) mod 2) as m.
    symmetry. apply (Z.div_unique _ _ _ (Z.of_N m)); lia. }
  assert (Hq18 : 18 <= (x - 1) / 2).
  { apply (N.div_le_lower_bound (x - 1) 2 18); lia. }
  split; [|split].
  - unfold network_id_of_v. rewrite Hq. lia.
  - unfold vee_of_v, network_id_of_v. rewrite Hq.
    pose proof (N.div_mod (x - 1) 2 ltac:(lia)) as Hd.
    pose proof (N.mod_lt (x - 1) 2 ltac:(lia)) as Hm.
    remember ((x - 1) / 2) as q. remember ((x - 1) mod 2) as m.
    lia.
  - intros t Hv. destruct (cached t) eqn:Hc.
    + unfold cached in Hc. unfold sender, bind, get.
      destruct (_sender t) as [[|b a]|]; discriminate.
    + rewrite (sender_uncached _ Hc).
      unfold recover_sender, bind, get, modify, ret, raise.
      destruct ((r t =? 0) && (s t =? 0)); [simpl; discriminate|].
      rewrite classify_v_accepts by (unfold v_recognised; lia).
      destruct (_ || _); [simpl; discriminate|].
      destruct (bytes_eqb _ _); simpl; discriminate.
Qed.

(** The recovery of a transaction that carries a signature, from the
    classification of [v] on. *)
Lemma recover_sender_signed (t : Transaction) :
  (r t =? 0) && (s t =? 0) = false ->
  v_recognised (v t) ->
  recover_sender t =
    let t1 := with_network_id (network_id_after t) t in
    if (N' <=? r t) || (N' <=? s t) || (r t =? 0) || (s t =? 0) then
      (Raise invalid_rs, t1)
    else
      let pub := ecrecover_to_pub (recovery_hash t) (recovery_parity t) (r t) (s t) in
      if bytes_eqb pub (repeat x00 64) then (Raise zero_pub, t1)
      else (Return (last20 (sha3 pub)), with_sender (Some (last20 (sha3 pub))) t1).
Proof.
  intros Hrs Hv. unfold recover_sender, bind, get. rewrite Hrs.
  rewrite (classify_v_accepts _ Hv). cbv zeta.
  destruct (_ || _); [reflexivity|].
  destruct (bytes_eqb _ _); reflexivity.
Qed.

Lemma recover_sender_bad_v (t : Transaction) :
  (r t =? 0) && (s t =? 0) = false ->
  ~ v_recognised (v t) ->
  recover_sender t = (Raise invalid_v, t).
Proof.
  intros Hrs Hv. unfold recover_sender, bind, get. rewrite Hrs.
  now rewrite (classify_v_rejects _ Hv).
Qed.

Lemma not_both_zero (t : Transaction) :
  ~ (r t = 0 /\ s t = 0) -> (r t =? 0) && (s t =? 0) = false.
Proof.
  intros Hn. apply andb_false_iff.
  destruct (N.eqb_spec (r t) 0); [|now left].
  destruct (N.eqb_spec (s t) 0); [tauto | now right].
Qed.

(** ** C3: the checks in front of the recovery *)

(** C3. During the recovery of a sender, with [r] and [s] not both zero:
    a [v] that is neither 27, 28 nor at least 37 fails with the invalid
    transaction error; otherwise [r >= N], [s >= N], [r = 0] or [s = 0]
    fails with the invalid transaction error; and in the one remaining
    case, where all the checks are passed, the outcome is that of the
    public key recovered from the hash, the parity, [r] and [s]. *)
Theorem sender_signature_checks (t : Transaction) :
  cached t = false ->
  ~ (r t = 0 /\ s t = 0) ->
  (~ v_recognised (v t) ->
     fst (sender t) = Raise (InvalidTransaction "Invalid V value")) /\
  (v_recognised (v t) ->
     N' <= r t \/ N' <= s t \/ r t = 0 \/ s t = 0 ->
     fst (sender t) = Raise (InvalidTransaction "Invalid signature values!")) /\
  (v_recognised (v t) ->
     r t < N' -> s t < N' -> r t <> 0 -> s t <> 0 ->
     fst (sender t) =
       after_recovery
         (ecrecover_to_pub (recovery_hash t) (recovery_parity t) (r t) (s t))).
Proof.
  intros Hc Hn. rewrite (sender_uncached _ Hc).
  pose proof (not_both_zero _ Hn) as Hrs.
  split; [|split].
  - intros Hv. now rewrite (recover_sender_bad_v _ Hrs Hv).
  - intros Hv Hbad. rewrite (recover_sender_signed _ Hrs Hv). cbv zeta.
    assert (Hb : (N' <=? r t) || (N' <=? s t) || (r t =? 0) || (s t =? 0) = true).
    { rewrite !orb_true_iff, !N.leb_le, !N.eqb_eq. tauto. }
    now rewrite Hb.
  - intros Hv Hr Hs Hr0 Hs0. rewrite (recover_sender_signed _ Hrs Hv). cbv zeta.
    assert (Hb : (N' <=? r t) || (N' <=? s t) || (r t =? 0) || (s t =? 0) = false).
    { rewrite !orb_false_iff, !N.leb_gt, !N.eqb_neq. tauto. }
    rewrite Hb. unfold after_recovery.
    destruct (bytes_eqb _ _); reflexivity.
Qed.

(** ** C7: the object after a failed recovery *)

(** C7, as amended.  When [sender] raises an invalid transaction error,
    the nine stored fields and the cached sender are as before.  The
    network id is as before when the error is the rejection of [v]; after
    the other two errors it holds what the classification of [v] stored
    before the checks: nothing for a [v] of 27 or 28, and
    [((v - 1) div 2) - 17] for a [v] of at least 37. *)
Theorem sender_failure_state (t t' : Transaction) (msg : string) :
  sender t = (Raise (InvalidTransaction msg), t') ->
  (msg = "Invalid V value"%string /\ t' = t) \/
  (msg <> "Invalid V value"%string /\
   v_recognised (v t) /\
   t' = with_network_id (network_id_after t) t).
Proof.
  destruct (cached t) eqn:Hc.
  - unfold cached in Hc. unfold sender, bind, get.
    destruct (_sender t) as [[|b a]|]; discriminate.
  - rewrite (sender_uncached _ Hc).
    destruct ((r t =? 0) && (s t =? 0)) eqn:Hrs.
    + unfold recover_sender, bind, get. rewrite Hrs. discriminate.
    + destruct (v_recognised_or_not (v t)) as [Hv|Hv].
      * rewrite (recover_sender_signed _ Hrs Hv). cbv zeta.
        destruct (_ || _).
        { intros [= <- <-]. right. repeat split; [discriminate | exact Hv]. }
        destruct (bytes_eqb _ _); [|discriminate].
        intros [= <- <-]. right. repeat split; [discriminate | exact Hv].
      * rewrite (recover_sender_bad_v _ Hrs Hv).
        intros [= <- <-]. now left.
Qed.

(** ** C8: the zero private key *)

(** C8. [sign] called with a zero private key in any of the four spellings
    (the integer 0, the empty string, 32 zero bytes, 64 characters '0')
    raises the invalid transaction error and leaves the object as it was:
    [v], [r], [s] and the cached sender are untouched, and no hash or
    signature has a part in the result, with or without a chain
    identifier. *)
Theorem sign_rejects_zero_key (key : pyval) (network_id : option N)
    (t : Transaction) :
  key = PInt 0 \/ key = PBytes [] \/ key = PBytes (repeat x00 32) \/
  key = PBytes (repeat x30 64) ->
  sign key network_id t =
    (Raise (InvalidTransaction "Zero privkey cannot sign"), t).
Proof.
  intros [-> | [-> | [-> | ->]]]; reflexivity.
Qed.

(** ** C5: the checks of the constructor *)

Lemma too_high_spec (nonce gasprice startgas value : N) :
  (TT256 <=? gasprice) || (TT256 <=? startgas) || (TT256 <=? value) ||
  (TT256 <=? nonce) = true <->
  TT256 <= nonce \/ TT256 <= gasprice \/ TT256 <= startgas \/ TT256 <= value.
Proof.
  rewrite !orb_true_iff, !N.leb_le. tauto.
Qed.

Lemma init_normalized (nonce gasprice startgas : N) (to to' : bytes)
    (value : N) (data : bytes) (v r s : N) :
  normalize_address to = Some to' ->
  (length to' = 20 \/ length to' = 0)%nat ->
  init nonce gasprice startgas to value data v r s =
    if (TT256 <=? gasprice) || (TT256 <=? startgas) || (TT256 <=? value) ||
       (TT256 <=? nonce) then
      Raise (InvalidTransaction "Values way too high!")
    else if startgas <? intrinsic_gas_used_of data then
      Raise (InvalidTransaction "Startgas too low")
    else
      Return (mkTransaction nonce gasprice startgas to' value data v r s
                            None None).
Proof.
  intros Hn Hl. unfold init. rewrite Hn.
  assert (Hb : ((length to' =? 20)%nat || (length to' =? 0)%nat) = true).
  { apply orb_true_iff. rewrite !Nat.eqb_eq. exact Hl. }
  rewrite Hb. reflexivity.
Qed.

(** C5. With a [to] that normalises to an empty or a 20-byte string, the
    constructor raises the invalid transaction error when [nonce],
    [gasprice], [startgas] or [value] is at least 2^256, and when
    [startgas] is below the intrinsic gas of [data]; with the four numbers
    below 2^256, a [startgas] equal to the intrinsic gas builds the
    transaction, and a [startgas] one less is refused. *)
Theorem init_checks (nonce gasprice startgas : N) (to to' : bytes)
    (value : N) (data : bytes) (v r s : N) :
  normalize_address to = Some to' ->
  (length to' = 20 \/ length to' = 0)%nat ->
  (2 ^ 256 <= nonce \/ 2 ^ 256 <= gasprice \/ 2 ^ 256 <= startgas \/
   2 ^ 256 <= value ->
   init nonce gasprice startgas to value data v r s =
     Raise (InvalidTransaction "Values way too high!")) /\
  (startgas < intrinsic_gas_used_of data ->
   exists msg,
     init nonce gasprice startgas to value data v r s =
       Raise (InvalidTransaction msg)) /\
  (nonce < 2 ^ 256 -> gasprice < 2 ^ 256 -> startgas < 2 ^ 256 ->
   value < 2 ^ 256 ->
   (startgas = intrinsic_gas_used_of data ->
    init nonce gasprice startgas to value data v r s =
      Return (mkTransaction nonce gasprice startgas to' value data v r s
                            None None)) /\
   (startgas + 1 = intrinsic_gas_used_of data ->
    init nonce gasprice startgas to value data v r s =
      Raise (InvalidTransaction "Startgas too low"))).
Proof.
  intros Hn Hl. rewrite (@init_normalized _ _ _ _ _ _ _ _ _ _ Hn Hl).
  change (2 ^ 256) with TT256.
  split; [|split].
  - intros Hhigh. apply too_high_spec in Hhigh. now rewrite Hhigh.
  - intros Hlow. destruct (_ || _); [eauto|].
    apply N.ltb_lt in Hlow. rewrite Hlow. eauto.
  - intros H1 H2 H3 H4.
    assert (Hb : (TT256 <=? gasprice) || (TT256 <=? startgas) ||
                 (TT256 <=? value) || (TT256 <=? nonce) = false).
    { rewrite !orb_false_iff, !N.leb_gt. tauto. }
    rewrite Hb. split.
    + intros ->. now rewrite N.ltb_irrefl.
    + intros Hone.
      assert (Hlt : (startgas <? intrinsic_gas_used_of data) = true)
        by (apply N.ltb_lt; lia).
      now rewrite Hlt.
Qed.

(** The intrinsic gas, by the count of the zero bytes. *)
Lemma count_zero_bytes_le (d : bytes) :
  count_zero_bytes d <= N.of_nat (length d).
Proof.
  unfold count_zero_bytes.
  pose proof (count_occ_bound Byte.byte_eq_dec x00 d). lia.
Qed.

(** ** C9 and C10: the address a transaction creates *)

Lemma to_is_blank_spec (t : Transaction) :
  to_is_blank t = true <-> to t = [] \/ to t = repeat x00 20.
Proof.
  unfold to_is_blank. rewrite orb_true_iff, !bytes_eqb_eq. tauto.
Qed.

(** With a blank [to], [creates] is the contract address of the sender and
    the nonce, and it fails where [sender] fails. *)
Lemma creates_blank (t : Transaction) :
  to_is_blank t = true ->
  creates t =
    match sender t with
    | (Return a, t') => (Return (Some (mk_contract_address a (nonce t))), t')
    | (Raise e, t') => (Raise e, t')
    end.
Proof.
  intros Hb. unfold creates, bind, get, ret. rewrite Hb.
  destruct (sender t) as [[a|e] t']; reflexivity.
Qed.

(** C9, as amended.  When [to] is empty or is 20 zero bytes, [creates]
    returns the contract address derived from the sender and the nonce;
    for every other [to] it returns nothing and leaves the object as it
    was. *)
Theorem creates_blank_or_absent (t : Transaction) :
  (to t = [] \/ to t = repeat x00 20 ->
   forall a t', sender t = (Return a, t') ->
     creates t = (Return (Some (mk_contract_address a (nonce t))), t')) /\
  (to t <> [] -> to t <> repeat x00 20 ->
   creates t = (Return None, t)).
Proof.
  split.
  - intros Hto a t' Hs. apply to_is_blank_spec in Hto.
    rewrite (creates_blank _ Hto), Hs. reflexivity.
  - intros H1 H2. unfold creates, bind, get, ret.
    destruct (to_is_blank t) eqn:Hb; [|reflexivity].
    apply to_is_blank_spec in Hb. tauto.
Qed.

(** C10. A [to] of 20 zero bytes is treated as an empty one: [creates]
    returns the contract address derived from the sender and the nonce,
    by the very computation it runs for the same transaction with an
    empty [to] and the same sender. *)
Theorem creates_zero_address (t : Transaction) (a : bytes) (t' : Transaction) :
  to t = repeat x00 20 ->
  sender t = (Return a, t') ->
  creates t = (Return (Some (mk_contract_address a (nonce t))), t').
Proof.
  intros Hto Hs.
  assert (Hb : to_is_blank t = true) by (apply to_is_blank_spec; tauto).
  rewrite (creates_blank _ Hb), Hs. reflexivity.
Qed.

(** ** C1 and C2: signing *)

Lemma rlp_encode_protected_eq (t : Transaction) (x : item) :
  rlp_encode_protected t x =
    encode_raw (unsigned_fields t ++ [infer_serialize x; []; []]).
Proof. reflexivity. Qed.

(** [sign] with a byte-string key that is not a zero key and a chain
    identifier in range returns. *)
Lemma sign_returns (t : Transaction) (k : bytes) (network_id : option N) :
  is_zero_key (PBytes k) = false ->
  valid_network_id network_id ->
  sign (PBytes k) network_id t = (Return tt, signed t k network_id).
Proof.
  intros Hz Hv. unfold sign. rewrite Hz.
  unfold signed, signing_hash, v_offset, key_used.
  destruct network_id as [c|]; unfold valid_network_id in Hv.
  - assert (Hb : (1 <=? c) && (c <? 2 ^ 63 - 18) = true).
    { apply andb_true_iff. rewrite N.leb_le, N.ltb_lt. exact Hv. }
    unfold rawhash_of, assert. rewrite Hb.
    cbv beta iota delta [bind get ret binary_key set_sender modify].
    destruct (length k =? 64)%nat;
      destruct (ecsign _ _) as [[v0 r0] s0]; reflexivity.
  - cbv beta iota delta [rawhash_of bind get ret binary_key set_sender modify].
    destruct (length k =? 64)%nat;
      destruct (ecsign _ _) as [[v0 r0] s0];
      rewrite N.add_0_r; reflexivity.
Qed.

(** A parity moved by [8 + c * 2] gives [c] back. *)
Lemma network_id_of_shifted_v (p c : N) :
  p = 27 \/ p = 28 -> network_id_of_v (p + (8 + c * 2)) = c.
Proof.
  unfold network_id_of_v. intros Hp.
  assert (Hq : (p + (8 + c * 2) - 1) / 2 = 17 + c).
  { symmetry. destruct Hp as [-> | ->].
    - apply (N.div_unique _ _ _ 0); lia.
    - apply (N.div_unique _ _ _ 1); lia. }
  rewrite Hq. lia.
Qed.

(** The recovery leaves in [network_id] what the classification stored,
    whether it then succeeds or fails on [r], [s] or the public key. *)
Lemma recover_sender_network_id (t : Transaction) :
  (r t =? 0) && (s t =? 0) = false ->
  v_recognised (v t) ->
  network_id (snd (recover_sender t)) = network_id_after t.
Proof.
  intros Hrs Hv. rewrite (recover_sender_signed _ Hrs Hv). cbv zeta.
  destruct (_ || _); [reflexivity|].
  destruct (bytes_eqb _ _); reflexivity.
Qed.

(** C1, as amended.  For a private key given as a byte string that is
    not a zero key, and a chain identifier that is absent or in the range
    [sign] asserts, with the signing primitive giving a parity of 27 or 28
    and scalars not both zero and the address of a key being 20 bytes:
    [sign] returns, reading [sender] next yields the address derived from
    the key on both paths (it is the address [sign] cached), and when a
    chain identifier [c] was passed, the recovery run on the signed fields
    sets the chain identifier to [c]. *)
Theorem sign_then_sender (t : Transaction) (k : bytes) (nid : option N) :
  is_zero_key (PBytes k) = false ->
  valid_network_id nid ->
  length (privtoaddr (key_used k)) = 20%nat ->
  (let '(v0, r0, s0) := ecsign (signing_hash t nid) (key_used k) in
   (v0 = 27 \/ v0 = 28) /\ ~ (r0 = 0 /\ s0 = 0)) ->
  exists t1,
    sign (PBytes k) nid t = (Return tt, t1) /\
    sender t1 = (Return (privtoaddr (key_used k)), t1) /\
    (forall c, nid = Some c ->
       network_id (snd (sender (with_sender None t1))) = Some c).
Proof.
  intros Hz Hv Hlen Hsig. exists (signed t k nid).
  split; [now apply sign_returns|].
  unfold signed in *.
  destruct (ecsign (signing_hash t nid) (key_used k)) as [[v0 r0] s0].
  destruct Hsig as [Hp Hrs]. split.
  - apply sender_cached; [reflexivity|].
    intros E. rewrite E in Hlen. discriminate.
  - intros c ->. rewrite sender_uncached by reflexivity.
    rewrite recover_sender_network_id.
    + unfold network_id_after. cbn [v with_sender with_vrs v_offset].
      assert (Hn : in_27_28 (v0 + (8 + c * 2)) = false).
      { unfold in_27_28. apply orb_false_iff. rewrite !N.eqb_neq. lia. }
      rewrite Hn. f_equal. now apply network_id_of_shifted_v.
    + now apply not_both_zero.
    + unfold v_recognised, valid_network_id in *.
      cbn [v with_sender with_vrs v_offset]. lia.
Qed.

(** C2, what the code does.  [sign] with a chain identifier [c] in range
    adds [8 + 2 * c] to the parity, as the specification says.  The hash it signs is the
    hash of the six unsigned fields followed by what [big_endian_to_int]
    returns for [c], and two empty strings; the hash the recovery computes
    from the resulting [v] is that of the six fields followed by [c]
    itself.  The two agree only where the helper hands [c] back. *)
Theorem sign_protected_hash (t : Transaction) (k : bytes) (c : N) :
  is_zero_key (PBytes k) = false ->
  1 <= c < 2 ^ 63 - 18 ->
  let rawhash :=
    sha3 (encode_raw (unsigned_fields t ++
                      [infer_serialize (big_endian_to_int c); []; []])) in
  exists t1,
    sign (PBytes k) (Some c) t = (Return tt, t1) /\
    v t1 = fst (fst (ecsign rawhash (key_used k))) + 8 + 2 * c /\
    r t1 = snd (fst (ecsign rawhash (key_used k))) /\
    s t1 = snd (ecsign rawhash (key_used k)) /\
    (in_27_28 (fst (fst (ecsign rawhash (key_used k)))) = true ->
     recovery_hash t1 =
       sha3 (encode_raw (unsigned_fields t ++ [int_to_big_endian c; []; []]))).
Proof.
  intros Hz Hc rawhash. exists (signed t k (Some c)).
  split; [now apply sign_returns|].
  unfold signed, signing_hash. rewrite rlp_encode_protected_eq.
  fold rawhash. destruct (ecsign rawhash (key_used k)) as [[v0 r0] s0].
  cbn [fst snd v r s with_sender with_vrs v_offset].
  repeat split; try lia.
  intros Hp. apply in_27_28_spec in Hp.
  unfold recovery_hash. cbn [v with_sender with_vrs].
  assert (Hn : in_27_28 (v0 + (8 + c * 2)) = false).
  { unfold in_27_28. apply orb_false_iff. rewrite !N.eqb_neq. lia. }
  rewrite Hn, (network_id_of_shifted_v c Hp). reflexivity.
Qed.

End Properties.

(** * The theorems on concrete transactions

    Each theorem above that has premises is applied here to a sample
    transaction, and each statement of the specification that the code
    does not meet is refuted on one. *)



(** C4 as stated fails: [r] and [s] are zero, and reading [sender] gives
    the assigned address, not the null address, and sets no chain
    identifier. *)
Lemma sender_null_signature_cached :
  r Sample.tx_assigned = 0 /\ s Sample.tx_assigned = 0 /\
  @sender Sample.collaborators Sample.tx_assigned =
    (Return (repeat x22 20), Sample.tx_assigned) /\
  repeat x22 20 <> repeat xff 20 /\
  network_id Sample.tx_assigned = None.
Proof.
  repeat split; discriminate.
Qed.

Lemma sender_null_signature_witness :
  @sender Sample.collaborators Sample.tx0 =
    (Return (repeat xff 20),
     with_sender (Some (repeat xff 20)) (with_network_id (Some 0) Sample.tx0)).
Proof.
  apply (@sender_null_signature Sample.collaborators Sample.tx0);
    reflexivity.
Defined.

Lemma vee_always_27_or_28_witness :
  vee_of_v 37 = 27 /\
  (forall t, v t = 37 ->
     fst (@sender Sample.collaborators t) <> Raise AssertionError).
Proof.
  destruct (@vee_always_27_or_28 Sample.collaborators 37 ltac:(lia))
    as [_ [_ [_ Hno]]].
  split; [reflexivity | exact Hno].
Defined.

Lemma sender_signature_checks_witness :
  fst (@sender Sample.collaborators Sample.tx_bad_rs) =
    Raise (InvalidTransaction "Invalid signature values!").
Proof.
  destruct (@sender_signature_checks Sample.collaborators Sample.tx_bad_rs)
    as [_ [Hrs _]].
  - reflexivity.
  - intros [_ E]. discriminate E.
  - apply Hrs.
    + right. right. vm_compute. discriminate.
    + right. right. left. reflexivity.
Defined.

(** C7 as stated fails: the recovery of [Sample.tx_bad_rs] raises the invalid
    transaction error and leaves a chain identifier that was not there
    before. *)
Lemma sender_failure_changes_network_id :
  @sender Sample.collaborators Sample.tx_bad_rs =
    (Raise (InvalidTransaction "Invalid signature values!"),
     with_network_id (Some 1) Sample.tx_bad_rs) /\
  network_id Sample.tx_bad_rs = None /\
  with_network_id (Some 1) Sample.tx_bad_rs <> Sample.tx_bad_rs.
Proof.
  split; [vm_compute; reflexivity|].
  split; [reflexivity | discriminate].
Qed.

Lemma sender_failure_state_witness :
  with_network_id (Some 1) Sample.tx_bad_rs =
    with_network_id (@network_id_after Sample.tx_bad_rs) Sample.tx_bad_rs.
Proof.
  destruct (@sender_failure_state Sample.collaborators Sample.tx_bad_rs
              (with_network_id (Some 1) Sample.tx_bad_rs)
              "Invalid signature values!")
    as [[E _] | [_ [_ E]]].
  - vm_compute. reflexivity.
  - discriminate E.
  - exact E.
Defined.

Lemma sign_rejects_zero_key_witness :
  @sign Sample.collaborators (PInt 0) (Some 1) Sample.tx0 =
    (Raise (InvalidTransaction "Zero privkey cannot sign"), Sample.tx0).
Proof.
  apply (@sign_rejects_zero_key Sample.collaborators). left. reflexivity.
Defined.

Lemma init_checks_witness :
  @init Sample.collaborators 0 1 21000 (repeat x11 20) 0 [] 0 0 0 =
    Return Sample.tx0 /\
  @init Sample.collaborators 0 1 20999 (repeat x11 20) 0 [] 0 0 0 =
    Raise (InvalidTransaction "Startgas too low").
Proof.
  split.
  - apply (@init_checks Sample.collaborators 0 1 21000 (repeat x11 20)
             (repeat x11 20) 0 [] 0 0 0);
      try reflexivity; left; reflexivity.
  - apply (@init_checks Sample.collaborators 0 1 20999 (repeat x11 20)
             (repeat x11 20) 0 [] 0 0 0);
      try reflexivity; left; reflexivity.
Defined.

(** C9 as stated fails: [to] is not empty, and [creates] returns an
    address. *)
Lemma creates_nonempty_to_not_absent :
  to Sample.tx_zero_to <> [] /\
  @creates Sample.collaborators Sample.tx_zero_to =
    (Return (Some (Sample.contract_address (repeat xff 20) 5)),
     with_sender (Some (repeat xff 20)) (with_network_id (Some 0) Sample.tx_zero_to)) /\
  fst (@creates Sample.collaborators Sample.tx_zero_to) <> Return None.
Proof.
  split; [discriminate|].
  split; [reflexivity | discriminate].
Qed.

Lemma creates_zero_address_witness :
  @creates Sample.collaborators Sample.tx_zero_to =
    (Return (Some (Sample.contract_address (repeat xff 20) 5)),
     with_sender (Some (repeat xff 20)) (with_network_id (Some 0) Sample.tx_zero_to)).
Proof.
  apply (@creates_zero_address Sample.collaborators Sample.tx_zero_to (repeat xff 20));
    reflexivity.
Defined.

(** C1 as stated fails: a non-zero key given as a number passes the zero
    check and stops at [len(key)]; a chain identifier out of range stops
    at the assertion. *)
Lemma sign_numeric_key_fails :
  is_zero_key (PInt 5) = false /\
  @sign Sample.collaborators (PInt 5) None Sample.tx0 =
    (Raise TypeError, Sample.tx0) /\
  @sign Sample.collaborators (PBytes Sample.key1) (Some 0) Sample.tx0 =
    (Raise AssertionError, Sample.tx0).
Proof.
  repeat split.
Qed.

Lemma sign_then_sender_witness :
  exists t1,
    @sign Sample.collaborators (PBytes Sample.key1) (Some 1) Sample.tx0 =
      (Return tt, t1) /\
    @sender Sample.collaborators t1 =
      (Return (Sample.address_of_key Sample.key1), t1) /\
    network_id (snd (@sender Sample.collaborators (with_sender None t1))) =
      Some 1.
Proof.
  destruct (@sign_then_sender Sample.collaborators Sample.tx0 Sample.key1 (Some 1))
    as [t1 [Hsign [Hsender Hnid]]].
  - reflexivity.
  - split; [lia | reflexivity].
  - reflexivity.
  - vm_compute. split; [left; reflexivity | intros [E _]; discriminate E].
  - exists t1. split; [exact Hsign|]. split; [exact Hsender|].
    apply Hnid. reflexivity.
Defined.

Lemma sign_protected_hash_witness :
  exists t1,
    @sign Sample.collaborators (PBytes Sample.key1) (Some 1) Sample.tx0 =
      (Return tt, t1) /\
    (v t1 = 37 \/ v t1 = 38).
Proof.
  destruct (@sign_protected_hash Sample.collaborators Sample.tx0 Sample.key1 1)
    as [t1 [Hsign [Hv _]]].
  - reflexivity.
  - split; [lia | reflexivity].
  - exists t1. split; [exact Hsign|].
    rewrite Hv. vm_compute. left. reflexivity.
Defined.

(** C2 on the sample collaborators: for the chain identifier 1 the helper
    gives 49, so [sign] hashes the item 0x31 where the recovery hashes the
    item 0x01, and the two hashes differ. *)
Lemma sign_chain_id_item_sample :
  @infer_serialize Sample.collaborators
     (@big_endian_to_int Sample.collaborators 1) = [x31] /\
  @int_to_big_endian Sample.collaborators 1 = [x01] /\
  @signing_hash Sample.collaborators Sample.tx0 (Some 1) <>
  @recovery_hash Sample.collaborators
     (@signed Sample.collaborators Sample.tx0 Sample.key1 (Some 1)).
Proof.
  split; [reflexivity|]. split; [reflexivity|].
  vm_compute. discriminate.
Qed.

(** * More properties of the module *)

Section MoreProperties.

Context `{Collaborators}.

(** ** The sender, read again *)

Lemma recover_sender_null (t : Transaction) :
  (r t =? 0) && (s t =? 0) = true ->
  recover_sender t =
    (Return null_address,
     with_sender (Some null_address) (with_network_id (Some (v t)) t)).
Proof.
  intros Hrs. unfold recover_sender, bind, get, modify, ret.
  now rewrite Hrs.
Qed.

(** Every outcome of the recovery, in one equation. *)
Lemma recover_sender_cases (t : Transaction) :
  recover_sender t =
    if (r t =? 0) && (s t =? 0) then
      (Return null_address,
       with_sender (Some null_address) (with_network_id (Some (v t)) t))
    else if negb (in_27_28 (v t) || (37 <=? v t)) then (Raise invalid_v, t)
    else
      let t1 := with_network_id (network_id_after t) t in
      if (N' <=? r t) || (N' <=? s t) || (r t =? 0) || (s t =? 0) then
        (Raise invalid_rs, t1)
      else
        let pub :=
          ecrecover_to_pub (recovery_hash t) (recovery_parity t) (r t) (s t) in
        if bytes_eqb pub (repeat x00 64) then (Raise zero_pub, t1)
        else (Return (last20 (sha3 pub)),
              with_sender (Some (last20 (sha3 pub))) t1).
Proof.
  destruct ((r t =? 0) && (s t =? 0)) eqn:Hrs.
  - now apply recover_sender_null.
  - destruct (in_27_28 (v t) || (37 <=? v t)) eqn:Hv; cbn [negb].
    + apply recover_sender_signed; [exact Hrs|].
      apply v_recognised_dec. now apply orb_true_iff.
    + apply recover_sender_bad_v; [exact Hrs|].
      intros Hr. apply v_recognised_dec, orb_true_iff in Hr. congruence.
Qed.

Lemma with_network_id_twice (x y : option N) (t : Transaction) :
  with_network_id x (with_network_id y t) = with_network_id x t.
Proof. reflexivity. Qed.

Lemma with_network_id_sender (x : option N) (a b : option bytes)
    (t : Transaction) :
  with_sender a (with_network_id x (with_sender b (with_network_id x t))) =
  with_sender a (with_network_id x t).
Proof. reflexivity. Qed.

(** The views of the recovery read the stored fields only. *)
Lemma recovery_views_network_id (x : option N) (t : Transaction) :
  recovery_hash (with_network_id x t) = recovery_hash t /\
  recovery_parity (with_network_id x t) = recovery_parity t /\
  network_id_after (with_network_id x t) = network_id_after t.
Proof. repeat split. Qed.

Lemma recovery_views_sender (a : option bytes) (t : Transaction) :
  recovery_hash (with_sender a t) = recovery_hash t /\
  recovery_parity (with_sender a t) = recovery_parity t /\
  network_id_after (with_sender a t) = network_id_after t.
Proof. repeat split. Qed.

(** Reading [sender] a second time gives the outcome of the first read and
    leaves the object as the first read left it: an address is served
    from the cache, a failure is the same failure again. *)
Theorem sender_idempotent (t : Transaction) :
  sender (snd (sender t)) = sender t.
Proof.
  destruct (cached t) eqn:Hc.
  - unfold cached in Hc. unfold sender at 2. unfold bind, get.
    destruct (_sender t) as [[|b a]|] eqn:Hs; try discriminate.
    cbn [snd ret]. unfold sender, bind, get. now rewrite Hs.
  - rewrite (sender_uncached _ Hc).
    pose proof (recover_sender_cases t) as Hcases.
    destruct ((r t =? 0) && (s t =? 0)) eqn:Hrs.
    { rewrite Hcases. cbn [snd]. now apply sender_cached. }
    destruct (negb (in_27_28 (v t) || (37 <=? v t))) eqn:Hv.
    { rewrite Hcases. cbn [snd]. now rewrite (sender_uncached _ Hc). }
    cbv zeta in Hcases.
    destruct ((N' <=? r t) || (N' <=? s t) || (r t =? 0) || (s t =? 0)) eqn:Hb.
    { rewrite Hcases. cbn [snd].
      rewrite sender_uncached by exact Hc.
      rewrite recover_sender_cases.
      destruct (recovery_views_network_id (network_id_after t) t)
        as [-> [-> ->]].
      cbn [r s v with_network_id]. rewrite Hrs, Hv. cbv zeta.
      now rewrite Hb. }
    destruct (bytes_eqb _ _) eqn:Hp.
    { rewrite Hcases. cbn [snd].
      rewrite sender_uncached by exact Hc.
      rewrite recover_sender_cases.
      destruct (recovery_views_network_id (network_id_after t) t)
        as [-> [-> ->]].
      cbn [r s v with_network_id]. rewrite Hrs, Hv. cbv zeta.
      now rewrite Hb, Hp. }
    rewrite Hcases. cbn [snd].
    destruct (last20 _) as [|b a] eqn:Ha.
    + rewrite sender_uncached by reflexivity.
      rewrite recover_sender_cases.
      rewrite (proj1 (recovery_views_sender _ _)).
      rewrite (proj1 (proj2 (recovery_views_sender _ _))).
      rewrite (proj2 (proj2 (recovery_views_sender _ _))).
      destruct (recovery_views_network_id (network_id_after t) t)
        as [-> [-> ->]].
      cbn [r s v with_network_id with_sender]. rewrite Hrs, Hv. cbv zeta.
      rewrite Hb, Hp, Ha. reflexivity.
    + now apply sender_cached.
Qed.

(** The hash reads the nine stored fields and nothing else. *)
Lemma hash_same_fields (a b : Transaction) :
  same_fields a b -> hash a = hash b.
Proof.
  unfold same_fields, hash, serialize.
  intros [-> [-> [-> [-> [-> [-> [-> [-> ->]]]]]]]]. reflexivity.
Qed.

(** The object a read of [sender] leaves is the object with its chain
    identifier and its cache rewritten. *)
Lemma sender_writes_two_attributes (t : Transaction) :
  exists x a, snd (sender t) = with_sender a (with_network_id x t).
Proof.
  destruct (cached t) eqn:Hc.
  - exists (network_id t), (_sender t).
    unfold cached in Hc. unfold sender, bind, get.
    destruct (_sender t) as [[|b a]|] eqn:Hs; try discriminate.
    cbn [snd ret]. rewrite <- Hs. now destruct t.
  - rewrite (sender_uncached _ Hc), recover_sender_cases.
    destruct ((r t =? 0) && (s t =? 0)); [now eexists _, _|].
    destruct (negb _).
    { exists (network_id t), (_sender t). now destruct t. }
    cbv zeta. destruct (_ || _).
    { exists (network_id_after t), (_sender t). now destruct t. }
    destruct (bytes_eqb _ _).
    { exists (network_id_after t), (_sender t). now destruct t. }
    now eexists _, _.
Qed.

(** Whatever its outcome, reading [sender] leaves the nine stored fields
    as they were, and with them the hash of the transaction. *)
Theorem sender_keeps_fields (t : Transaction) :
  same_fields (snd (sender t)) t /\ hash (snd (sender t)) = hash t.
Proof.
  destruct (sender_writes_two_attributes t) as [x [a ->]].
  split; [repeat split | reflexivity].
Qed.

(** The only errors of [sender] are its three invalid transaction
    errors: the rejected [v], the rejected [r] or [s], the zero public
    key. *)
Theorem sender_errors (t : Transaction) (e : exn) :
  fst (sender t) = Raise e ->
  e = InvalidTransaction "Invalid V value" \/
  e = InvalidTransaction "Invalid signature values!" \/
  e = InvalidTransaction "Invalid signature (zero privkey cannot sign)".
Proof.
  destruct (cached t) eqn:Hc.
  - unfold cached in Hc. unfold sender, bind, get.
    destruct (_sender t) as [[|b a]|]; discriminate.
  - rewrite (sender_uncached _ Hc), recover_sender_cases.
    destruct ((r t =? 0) && (s t =? 0)); [discriminate|].
    destruct (negb _); [intros [= <-]; now left|].
    cbv zeta. destruct (_ || _); [intros [= <-]; right; now left|].
    destruct (bytes_eqb _ _); [intros [= <-]; right; now right|discriminate].
Qed.

Lemma last20_length (x : bytes) :
  (20 <= length x)%nat -> length (last20 x) = 20%nat.
Proof.
  intros Hx. unfold last20. rewrite length_skipn. lia.
Qed.

(** With a digest of at least 20 bytes, an address that [sender] computes
    (none being cached) is 20 bytes long, and it is in the cache
    afterwards. *)
Theorem sender_address_length (t t' : Transaction) (a : bytes) :
  (forall x, 20 <= length (sha3 x))%nat ->
  cached t = false ->
  sender t = (Return a, t') ->
  length a = 20%nat /\ _sender t' = Some a.
Proof.
  intros Hd Hc. rewrite (sender_uncached _ Hc), recover_sender_cases.
  destruct ((r t =? 0) && (s t =? 0)).
  { intros [= <- <-]. split; reflexivity. }
  destruct (negb _); [discriminate|]. cbv zeta.
  destruct (_ || _); [discriminate|].
  destruct (bytes_eqb _ _); [discriminate|].
  intros [= <- <-]. split; [|reflexivity].
  apply last20_length, Hd.
Qed.

(** ** Signing *)

Lemma network_id_ok_spec (nid : option N) :
  network_id_ok nid = true <-> valid_network_id nid.
Proof.
  destruct nid as [c|]; cbn [network_id_ok valid_network_id]; [|tauto].
  rewrite andb_true_iff, N.leb_le, N.ltb_lt. tauto.
Qed.

(** Every outcome of [sign], in the order of its checks. *)
Lemma sign_outcome (key : pyval) (nid : option N) (t : Transaction) :
  sign key nid t =
    if is_zero_key key then (Raise zero_privkey, t)
    else if negb (network_id_ok nid) then (Raise AssertionError, t)
    else
      match key with
      | PInt _ => (Raise TypeError, t)
      | PBytes k => (Return tt, signed t k nid)
      end.
Proof.
  destruct (is_zero_key key) eqn:Hz.
  { unfold sign. now rewrite Hz. }
  destruct (network_id_ok nid) eqn:Hn; cbn [negb].
  - destruct key as [z|k].
    + unfold sign. rewrite Hz.
      destruct nid as [c|]; cbn [network_id_ok] in Hn;
        unfold rawhash_of, assert; rewrite ?Hn; reflexivity.
    + apply sign_returns; [exact Hz | now apply network_id_ok_spec].
  - destruct nid as [c|]; [|discriminate]. cbn [network_id_ok] in Hn.
    unfold sign. rewrite Hz. unfold rawhash_of, assert. rewrite Hn.
    reflexivity.
Qed.


(** A call of [sign] that raises leaves the object exactly as it was; one
    that returns has written [v], [r], [s] and the sender cache and
    nothing else: the six unsigned fields and the chain identifier
    attribute are those from before, also when a chain identifier was
    passed. *)
Theorem sign_all_or_nothing (key : pyval) (nid : option N)
    (t : Transaction) :
  match sign key nid t with
  | (Raise _, t') => t' = t
  | (Return _, t') =>
      nonce t' = nonce t /\ gasprice t' = gasprice t /\
      startgas t' = startgas t /\ to t' = to t /\ value t' = value t /\
      data t' = data t /\ network_id t' = network_id t
  end.
Proof.
  rewrite sign_outcome.
  destruct (is_zero_key key); [reflexivity|].
  destruct (negb _); [reflexivity|].
  destruct key as [z|k]; [reflexivity|].
  unfold signed. destruct (ecsign _ _) as [[v0 r0] s0]. repeat split.
Qed.

(** [sign] overrides: the signature and the sender it leaves do not
    depend on the [v], [r], [s] and the cached sender the object held
    before. *)
Theorem sign_overrides (key : pyval) (nid : option N) (t : Transaction)
    (v1 r1 s1 : N) (a : option bytes) :
  let t0 := with_sender a (with_vrs v1 r1 s1 t) in
  fst (sign key nid t0) = fst (sign key nid t) /\
  (fst (sign key nid t) = Return tt ->
   snd (sign key nid t0) = snd (sign key nid t)).
Proof.
  intros t0. subst t0. rewrite !sign_outcome.
  destruct (is_zero_key key); [split; [reflexivity | discriminate]|].
  destruct (negb _); [split; [reflexivity | discriminate]|].
  destruct key as [z|k]; [split; [reflexivity | discriminate]|].
  split; reflexivity.
Qed.

(** After [sign] with a chain identifier, reading [sender] is served from
    the cache, so the chain identifier attribute is never set from [v]:
    it still holds what it held before signing. *)
Theorem sign_leaves_network_id_stale (t : Transaction) (k : bytes) (c : N) :
  is_zero_key (PBytes k) = false ->
  1 <= c < 2 ^ 63 - 18 ->
  privtoaddr (key_used k) <> [] ->
  network_id (snd (sender (snd (sign (PBytes k) (Some c) t)))) = network_id t.
Proof.
  intros Hz Hc Ha. rewrite sign_outcome, Hz.
  assert (Hn : network_id_ok (Some c) = true)
    by (apply network_id_ok_spec; exact Hc).
  rewrite Hn. cbn [negb snd].
  assert (Hs : _sender (signed t k (Some c)) = Some (privtoaddr (key_used k))).
  { unfold signed. destruct (ecsign _ _) as [[v0 r0] s0]. reflexivity. }
  rewrite (sender_cached _ Hs Ha). cbn [snd].
  unfold signed. destruct (ecsign _ _) as [[v0 r0] s0]. reflexivity.
Qed.

(** A key of 64 characters is signed with as its decoded form: [sign]
    gives the same outcome and the same object for the two, provided the
    decoded key is not itself 64 bytes long and neither is a zero key. *)
Theorem sign_hex_key (t : Transaction) (k : bytes) (nid : option N) :
  length k = 64%nat ->
  length (encode_privkey k) <> 64%nat ->
  is_zero_key (PBytes k) = false ->
  is_zero_key (PBytes (encode_privkey k)) = false ->
  sign (PBytes k) nid t = sign (PBytes (encode_privkey k)) nid t.
Proof.
  intros Hl Hl' Hz Hz'. rewrite !sign_outcome, Hz, Hz'.
  destruct (negb _); [reflexivity|].
  unfold signed, key_used. rewrite Hl.
  apply Nat.eqb_neq in Hl'. rewrite Hl'. reflexivity.
Qed.

(** ** The chain identifier inside [v] *)

Lemma shifted_v_facts (p c : N) :
  p = 27 \/ p = 28 ->
  1 <= c < 2 ^ 63 - 18 ->
  let x := p + (8 + c * 2) in
  37 <= x < 2 ^ 64 /\ in_27_28 x = false /\
  network_id_of_v x = c /\ vee_of_v x = p.
Proof.
  intros Hp Hc x. subst x.
  pose proof (network_id_of_shifted_v c Hp) as Hn.
  assert (H64 : 2 ^ 64 = 2 * 2 ^ 63) by reflexivity.
  split; [lia|]. split.
  { unfold in_27_28. apply orb_false_iff. rewrite !N.eqb_neq. lia. }
  split; [exact Hn|].
  unfold vee_of_v. rewrite Hn. lia.
Qed.

(** What [sign] writes into [v] for a chain identifier in range decodes
    to the parity and the chain identifier it was made of, is accepted by
    the recovery as a replay-protected [v], and is below 2^64: that is
    what the upper bound [2^63 - 18] of [sign] buys. *)
Theorem v_encode_decode (p c : N) :
  p = 27 \/ p = 28 ->
  1 <= c < 2 ^ 63 - 18 ->
  let x := p + (8 + c * 2) in
  37 <= x < 2 ^ 64 /\ in_27_28 x = false /\
  network_id_of_v x = c /\ vee_of_v x = p.
Proof.
  intros Hp Hc x. subst x.
  pose proof (network_id_of_shifted_v c Hp) as Hn.
  assert (H64 : 2 ^ 64 = 2 * 2 ^ 63) by reflexivity.
  split; [lia|]. split.
  { unfold in_27_28. apply orb_false_iff. rewrite !N.eqb_neq. lia. }
  split; [exact Hn|].
  unfold vee_of_v. rewrite Hn. lia.
Qed.

(** Every [v] of at least 37 is the encoding of the parity and the chain
    identifier the recovery reads off it, and that chain identifier is at
    least 1: the values 0 that [sign] refuses are never recovered. *)
Theorem v_decode_encode (x : N) :
  37 <= x ->
  x = vee_of_v x + (8 + network_id_of_v x * 2) /\ 1 <= network_id_of_v x.
Proof.
  intros Hx. unfold vee_of_v, network_id_of_v.
  pose proof (N.div_mod (x - 1) 2 ltac:(lia)) as Hd.
  pose proof (N.mod_lt (x - 1) 2 ltac:(lia)) as Hm.
  remember ((x - 1) / 2) as q. remember ((x - 1) mod 2) as m.
  lia.
Qed.

(** ** Signing, then recovering *)

(** The recovery run on a freshly signed object recovers from the hash
    that was signed and from the parity the signing gave. *)
Lemma recovery_inputs_signed (t : Transaction) (k : bytes)
    (nid : option N) :
  valid_network_id nid ->
  in_27_28 (fst (fst (ecsign (signing_hash t nid) (key_used k)))) = true ->
  (forall c, nid = Some c ->
     infer_serialize (big_endian_to_int c) = int_to_big_endian c) ->
  let t1 := with_sender None (signed t k nid) in
  recovery_hash t1 = signing_hash t nid /\
  recovery_parity t1 = fst (fst (ecsign (signing_hash t nid) (key_used k))).
Proof.
  intros Hv Hp Hh t1. subst t1. unfold signed.
  destruct (ecsign (signing_hash t nid) (key_used k)) as [[v0 r0] s0].
  cbn [fst] in *. unfold recovery_hash, recovery_parity.
  cbn [v with_sender with_vrs].
  destruct nid as [c|]; cbn [v_offset].
  - apply in_27_28_spec in Hp. cbn [valid_network_id] in Hv.
    destruct (@shifted_v_facts v0 c Hp Hv) as [_ [Hn [Hc Hvee]]].
    rewrite Hn, Hc, Hvee. split; [|reflexivity].
    unfold signing_hash. rewrite !rlp_encode_protected_eq.
    cbn [infer_serialize]. rewrite (Hh c eq_refl). reflexivity.
  - rewrite N.add_0_r, Hp. split; reflexivity.
Qed.

(** Signing and recovering fit together.  Take a byte-string key that is
    not a zero key and a chain identifier absent or in range, and let the
    curve primitives be a pair: the signature has a parity of 27 or 28
    and scalars between 0 and the curve order, and the public key
    recovered from the signed hash and that signature is not the zero key
    and hashes to the address of the signing key.  Then the recovery run
    on the signed fields alone (the cache cleared, as in a copy decoded
    from the wire) returns the address of the key.  On the chain
    identifier path this needs the helper applied to the chain identifier
    to serialise as the chain identifier itself. *)
Theorem sign_then_recover (t : Transaction) (k : bytes) (nid : option N) :
  is_zero_key (PBytes k) = false ->
  valid_network_id nid ->
  (forall c, nid = Some c ->
     infer_serialize (big_endian_to_int c) = int_to_big_endian c) ->
  let h := signing_hash t nid in
  let sig := ecsign h (key_used k) in
  let pub := ecrecover_to_pub h (fst (fst sig)) (snd (fst sig)) (snd sig) in
  (fst (fst sig) = 27 \/ fst (fst sig) = 28) ->
  0 < snd (fst sig) < N' ->
  0 < snd sig < N' ->
  pub <> repeat x00 64 ->
  last20 (sha3 pub) = privtoaddr (key_used k) ->
  exists t1,
    sign (PBytes k) nid t = (Return tt, t1) /\
    fst (sender (with_sender None t1)) = Return (privtoaddr (key_used k)).
Proof.
  intros Hz Hv Hh h sig pub Hp Hr Hs Hpub Haddr.
  exists (signed t k nid). split; [now apply sign_returns|].
  rewrite sender_uncached by reflexivity.
  assert (Hp' : in_27_28 (fst (fst sig)) = true) by now apply in_27_28_spec.
  destruct (@recovery_inputs_signed t k nid Hv Hp' Hh) as [Hhash Hpar].
  rewrite recover_sender_cases, Hhash, Hpar.
  assert (Hfields : r (with_sender None (signed t k nid)) = snd (fst sig) /\
                    s (with_sender None (signed t k nid)) = snd sig /\
                    v (with_sender None (signed t k nid)) =
                      fst (fst sig) + v_offset nid).
  { unfold signed. fold h. fold sig. destruct sig as [[v0 r0] s0].
    repeat split. }
  destruct Hfields as [-> [-> ->]].
  fold h. fold sig. fold pub.
  assert (Hrs : (snd (fst sig) =? 0) && (snd sig =? 0) = false).
  { apply andb_false_iff. left. apply N.eqb_neq. lia. }
  rewrite Hrs.
  assert (Hrec : in_27_28 (fst (fst sig) + v_offset nid) ||
                 (37 <=? fst (fst sig) + v_offset nid) = true).
  { apply orb_true_iff. destruct nid as [c|]; cbn [v_offset].
    - right. cbn [valid_network_id] in Hv. apply N.leb_le. lia.
    - left. now rewrite N.add_0_r. }
  rewrite Hrec. cbn [negb]. cbv zeta.
  assert (Hb : (N' <=? snd (fst sig)) || (N' <=? snd sig) ||
               (snd (fst sig) =? 0) || (snd sig =? 0) = false).
  { rewrite !orb_false_iff, !N.leb_gt, !N.eqb_neq. lia. }
  rewrite Hb.
  destruct (bytes_eqb pub (repeat x00 64)) eqn:Hq.
  { apply bytes_eqb_eq in Hq. contradiction. }
  cbn [fst]. now rewrite Haddr.
Qed.

(** ** Equality and hashing *)

Lemma eq_transactions (a b : Transaction) :
  __eq__ a (OTransaction b) = true <-> hash a = hash b.
Proof. unfold __eq__. apply bytes_eqb_eq. Qed.

(** [__eq__] is an equivalence on transactions, nothing that is not a
    transaction equals one, and [__ne__] is its negation. *)
Theorem eq_is_equivalence (a b c : Transaction) (x : pyval) :
  __eq__ a (OTransaction a) = true /\
  (__eq__ a (OTransaction b) = true -> __eq__ b (OTransaction a) = true) /\
  (__eq__ a (OTransaction b) = true -> __eq__ b (OTransaction c) = true ->
   __eq__ a (OTransaction c) = true) /\
  __eq__ a (OOther x) = false /\
  __ne__ a (OOther x) = true /\
  __ne__ a (OTransaction b) = negb (__eq__ a (OTransaction b)).
Proof.
  rewrite !eq_transactions. repeat split; congruence.
Qed.

(** Equality and [__hash__] go by the nine stored fields: two objects
    that agree on them are equal whatever their chain identifier and
    cached sender, equal objects have the same [__hash__], and an object
    stays equal to itself across a read of [sender]. *)
Theorem eq_reads_fields_only (bytes_to_int : bytes -> N)
    (a b t : Transaction) :
  (same_fields a b -> __eq__ a (OTransaction b) = true) /\
  (__eq__ a (OTransaction b) = true ->
   __hash__ bytes_to_int a = __hash__ bytes_to_int b) /\
  __eq__ (snd (sender t)) (OTransaction t) = true.
Proof.
  rewrite !eq_transactions. unfold __hash__. repeat split.
  - apply hash_same_fields.
  - now intros ->.
  - destruct (sender_writes_two_attributes t) as [x [y ->]]. reflexivity.
Qed.

(** ** The low-S checks *)

Lemma half_le (n x : N) : x <= n / 2 <-> 2 * x <= n.
Proof.
  pose proof (N.div_mod n 2 ltac:(lia)) as Hd.
  pose proof (N.mod_lt n 2 ltac:(lia)) as Hm.
  remember (n / 2) as q. remember (n mod 2) as m. lia.
Qed.

Lemma check_low_s_metropolis_cases (t : Transaction) :
  check_low_s_metropolis t =
    (if N' / 2 <? s t then Raise invalid_s else Return tt, t).
Proof.
  unfold check_low_s_metropolis, bind, get, raise, ret.
  destruct (N' / 2 <? s t); reflexivity.
Qed.

Lemma check_low_s_homestead_cases (t : Transaction) :
  check_low_s_homestead t =
    (if (N' / 2 <? s t) || (s t =? 0) then Raise invalid_s else Return tt, t).
Proof.
  unfold check_low_s_homestead, bind, get, raise, ret.
  destruct ((N' / 2 <? s t) || (s t =? 0)); reflexivity.
Qed.

(** Neither low-S check touches the object.  The Metropolis check passes
    exactly when twice [s] is at most the curve order, the Homestead
    check exactly when moreover [s] is not 0; so whatever passes the
    Homestead check passes the Metropolis check. *)
Theorem low_s_checks (t : Transaction) :
  snd (check_low_s_metropolis t) = t /\
  snd (check_low_s_homestead t) = t /\
  (fst (check_low_s_metropolis t) = Return tt <-> 2 * s t <= N') /\
  (fst (check_low_s_homestead t) = Return tt <->
   2 * s t <= N' /\ s t <> 0).
Proof.
  rewrite check_low_s_metropolis_cases, check_low_s_homestead_cases.
  cbn [fst snd]. split; [reflexivity|]. split; [reflexivity|].
  rewrite <- half_le. split.
  - destruct (N.ltb_spec (N' / 2) (s t)); split;
      try discriminate; try reflexivity; lia.
  - destruct (N.ltb_spec (N' / 2) (s t)); destruct (N.eqb_spec (s t) 0);
      cbn [orb]; split; try discriminate; try reflexivity; lia.
Qed.

(** A signature that passed the Homestead check cannot fail the range
    checks of the recovery on account of [s]: with [r] in range and a
    [v] the recovery accepts, reading [sender] goes on to the public key
    recovery. *)
Theorem low_s_then_sender (t : Transaction) :
  fst (check_low_s_homestead t) = Return tt ->
  0 < r t < N' ->
  v_recognised (v t) ->
  cached t = false ->
  fst (sender t) =
    after_recovery
      (ecrecover_to_pub (recovery_hash t) (recovery_parity t) (r t) (s t)).
Proof.
  rewrite check_low_s_homestead_cases. cbn [fst].
  intros Hs Hr Hv Hc.
  destruct ((N' / 2 <? s t) || (s t =? 0)) eqn:Hb; [discriminate|].
  apply orb_false_iff in Hb. destruct Hb as [Hhalf Hs0].
  apply N.ltb_ge in Hhalf. apply N.eqb_neq in Hs0.
  apply half_le in Hhalf.
  rewrite (sender_uncached _ Hc), recover_sender_cases.
  assert (Hrs : (r t =? 0) && (s t =? 0) = false).
  { apply andb_false_iff. right. now apply N.eqb_neq. }
  rewrite Hrs.
  apply v_recognised_dec, orb_true_iff in Hv. rewrite Hv. cbn [negb].
  cbv zeta.
  assert (Hb : (N' <=? r t) || (N' <=? s t) || (r t =? 0) || (s t =? 0) = false).
  { rewrite !orb_false_iff, !N.leb_gt, !N.eqb_neq. lia. }
  rewrite Hb. unfold after_recovery.
  destruct (bytes_eqb _ _); reflexivity.
Qed.

(** ** The intrinsic gas *)

Lemma count_zero_bytes_cons (b : byte) (d : bytes) :
  count_zero_bytes (b :: d) =
    (if Byte.eqb b x00 then 1 else 0) + count_zero_bytes d.
Proof.
  unfold count_zero_bytes. cbn [count_occ].
  destruct (Byte.byte_eq_dec b x00) as [->|Hne].
  - change (Byte.eqb x00 x00) with true. cbv iota.
    rewrite Nat2N.inj_succ. lia.
  - destruct (Byte.eqb b x00) eqn:E.
    + apply Byte.byte_dec_bl in E. contradiction.
    + lia.
Qed.

Lemma intrinsic_gas_cons (b : byte) (d : bytes) :
  intrinsic_gas_used_of (b :: d) = byte_gas b + intrinsic_gas_used_of d.
Proof.
  unfold intrinsic_gas_used_of, byte_gas. rewrite count_zero_bytes_cons.
  pose proof (count_zero_bytes_le d) as Hle.
  cbn [length]. destruct (Byte.eqb b x00); nia.
Qed.

(** The intrinsic gas is the base cost plus the cost of each byte of the
    data, a zero byte at [GTXDATAZERO] and any other at [GTXDATANONZERO]:
    counting the zero bytes and subtracting from the length charges every
    byte once. *)
Theorem intrinsic_gas_per_byte (d : bytes) :
  intrinsic_gas_used_of d = GTXCOST + fold_right (fun b acc => byte_gas b + acc) 0 d.
Proof.
  induction d as [|b d IH].
  - unfold intrinsic_gas_used_of, count_zero_bytes. cbn. lia.
  - rewrite intrinsic_gas_cons, IH. cbn [fold_right]. lia.
Qed.

(** Empty data costs the base cost, and the intrinsic gas is additive in
    the data: two pieces together cost the sum of the two less one base
    cost. *)
Theorem intrinsic_gas_app (d1 d2 : bytes) :
  intrinsic_gas_used_of [] = GTXCOST /\
  intrinsic_gas_used_of (d1 ++ d2) + GTXCOST =
    intrinsic_gas_used_of d1 + intrinsic_gas_used_of d2.
Proof.
  split.
  - unfold intrinsic_gas_used_of, count_zero_bytes. cbn. lia.
  - induction d1 as [|b d1 IH]; cbn [app].
    + unfold intrinsic_gas_used_of at 2, count_zero_bytes. cbn. lia.
    + rewrite !intrinsic_gas_cons. lia.
Qed.

(** With zero bytes no dearer than the others, the intrinsic gas lies
    between the base cost plus the zero-byte rate on the whole length and
    the base cost plus the other rate on the whole length. *)
Theorem intrinsic_gas_bounds (d : bytes) :
  GTXDATAZERO <= GTXDATANONZERO ->
  GTXCOST + GTXDATAZERO * N.of_nat (length d) <= intrinsic_gas_used_of d /\
  intrinsic_gas_used_of d <= GTXCOST + GTXDATANONZERO * N.of_nat (length d).
Proof.
  intros Hle. induction d as [|b d IH].
  - unfold intrinsic_gas_used_of, count_zero_bytes. cbn. lia.
  - rewrite intrinsic_gas_cons. unfold byte_gas. cbn [length].
    destruct (Byte.eqb b x00); nia.
Qed.

(** ** The constructor and the invariant it sets up *)

Lemma init_returns_iff_helper (nonce gasprice startgas : N) (to : bytes)
    (value : N) (data : bytes) (v r s : N) (t : Transaction) :
  init nonce gasprice startgas to value data v r s = Return t ->
  exists to',
    normalize_address to = Some to' /\
    (length to' = 20 \/ length to' = 0)%nat /\
    nonce < TT256 /\ gasprice < TT256 /\ startgas < TT256 /\
    value < TT256 /\
    intrinsic_gas_used_of data <= startgas /\
    t = mkTransaction nonce gasprice startgas to' value data v r s None None.
Proof.
  unfold init. destruct (normalize_address to) as [to'|]; [|discriminate].
  destruct ((length to' =? 20)%nat || (length to' =? 0)%nat) eqn:Hl;
    cbn [negb]; [|discriminate].
  destruct ((TT256 <=? gasprice) || (TT256 <=? startgas) ||
            (TT256 <=? value) || (TT256 <=? nonce)) eqn:Hb; [discriminate|].
  match goal with
  | |- context [intrinsic_gas_used ?x] =>
      change (intrinsic_gas_used x) with (intrinsic_gas_used_of data)
  end.
  destruct (startgas <? intrinsic_gas_used_of data) eqn:Hg; [discriminate|].
  intros [= <-]. exists to'.
  apply orb_true_iff in Hl. rewrite !Nat.eqb_eq in Hl.
  rewrite !orb_false_iff, !N.leb_gt in Hb. apply N.ltb_ge in Hg.
  repeat split; tauto.
Qed.

(** The constructor returns exactly under its four conditions: [to]
    normalises, to 20 bytes or none; the four numbers are below 2^256;
    [startgas] covers the intrinsic gas.  The object it returns holds the
    arguments, the normalised [to], no chain identifier and no sender. *)
Theorem init_returns_iff (nonce gasprice startgas : N) (to : bytes)
    (value : N) (data : bytes) (v r s : N) (t : Transaction) :
  init nonce gasprice startgas to value data v r s = Return t <->
  exists to',
    normalize_address to = Some to' /\
    (length to' = 20 \/ length to' = 0)%nat /\
    nonce < 2 ^ 256 /\ gasprice < 2 ^ 256 /\ startgas < 2 ^ 256 /\
    value < 2 ^ 256 /\
    intrinsic_gas_used_of data <= startgas /\
    t = mkTransaction nonce gasprice startgas to' value data v r s None None.
Proof.
  change (2 ^ 256) with TT256. split.
  - apply init_returns_iff_helper.
  - intros [to' [Hn [Hl [H1 [H2 [H3 [H4 [Hg ->]]]]]]]].
    rewrite (@init_normalized _ _ _ _ _ _ _ _ _ _ _ Hn Hl).
    assert (Hb : (TT256 <=? gasprice) || (TT256 <=? startgas) ||
                 (TT256 <=? value) || (TT256 <=? nonce) = false).
    { rewrite !orb_false_iff, !N.leb_gt. tauto. }
    rewrite Hb. apply N.ltb_ge in Hg. now rewrite Hg.
Qed.

Lemma well_formed_same (a b : Transaction) :
  to a = to b -> nonce a = nonce b -> gasprice a = gasprice b ->
  startgas a = startgas b -> value a = value b -> data a = data b ->
  well_formed b -> well_formed a.
Proof.
  unfold well_formed, intrinsic_gas_used.
  intros -> -> -> -> -> ->. tauto.
Qed.

Lemma creates_state (t : Transaction) :
  snd (creates t) = t \/ snd (creates t) = snd (sender t).
Proof.
  unfold creates, bind, get, ret.
  destruct (to_is_blank t); [|now left].
  right. destruct (sender t) as [[a|e] t']; reflexivity.
Qed.

(** What the constructor checks stays true: an object it returns has a
    [to] of 20 bytes or none, its four numbers below 2^256 and a
    [startgas] that covers the intrinsic gas, and [sign], [sender], the
    sender setter, [creates] and the low-S checks keep all of that,
    whether they return or raise. *)
Theorem well_formed_invariant (t : Transaction) :
  (forall nonce gasprice startgas to value data v r s,
     init nonce gasprice startgas to value data v r s = Return t ->
     well_formed t) /\
  (well_formed t ->
   (forall key nid, well_formed (snd (sign key nid t))) /\
   well_formed (snd (sender t)) /\
   (forall x, well_formed (snd (set_sender x t))) /\
   well_formed (snd (creates t)) /\
   well_formed (snd (check_low_s_metropolis t)) /\
   well_formed (snd (check_low_s_homestead t))).
Proof.
  split.
  - intros n g sg dst va d v0 r0 s0 Hinit.
    unfold init in Hinit.
    destruct (normalize_address dst) as [to'|]; [|discriminate].
    destruct ((length to' =? 20)%nat || (length to' =? 0)%nat) eqn:Hl;
      cbn [negb] in Hinit; [|discriminate].
    destruct ((TT256 <=? g) || (TT256 <=? sg) || (TT256 <=? va) ||
              (TT256 <=? n)) eqn:Hb; [discriminate|].
    destruct (sg <? _) eqn:Hg; [discriminate|].
    injection Hinit as <-.
    apply orb_true_iff in Hl. rewrite !Nat.eqb_eq in Hl.
    rewrite !orb_false_iff, !N.leb_gt in Hb. apply N.ltb_ge in Hg.
    unfold well_formed. cbn [to nonce gasprice startgas value].
    repeat split; tauto.
  - intros Hwf.
    assert (Hsender : well_formed (snd (sender t))).
    { destruct (sender_writes_two_attributes t) as [x [a ->]].
      revert Hwf. now apply well_formed_same. }
    split; [|split; [|split; [|split; [|split]]]].
    + intros key nid. rewrite sign_outcome.
      destruct (is_zero_key key); [exact Hwf|].
      destruct (negb _); [exact Hwf|].
      destruct key as [z|k]; [exact Hwf|].
      cbn [snd]. unfold signed. destruct (ecsign _ _) as [[v0 r0] s0].
      revert Hwf. now apply well_formed_same.
    + exact Hsender.
    + intros x. revert Hwf. now apply well_formed_same.
    + destruct (creates_state t) as [-> | ->]; assumption.
    + now rewrite check_low_s_metropolis_cases.
    + now rewrite check_low_s_homestead_cases.
Qed.

(** ** [contract] and [creates] *)

(** A transaction built by [contract] (the empty [to] normalising to
    itself) has an empty [to], so [creates] always names an address for
    it: the contract address of its sender and nonce, failing only where
    [sender] fails; unsigned, that is the contract address of the null
    address. *)
Theorem contract_creates (nonce gasprice startgas endowment : N)
    (code : bytes) (v r s : N) (t : Transaction) :
  normalize_address [] = Some [] ->
  contract nonce gasprice startgas endowment code v r s = Return t ->
  to t = [] /\
  creates t =
    match sender t with
    | (Return a, t') => (Return (Some (mk_contract_address a nonce)), t')
    | (Raise e, t') => (Raise e, t')
    end /\
  (r = 0 -> s = 0 ->
   fst (creates t) = Return (Some (mk_contract_address (repeat xff 20) nonce))).
Proof.
  intros Hn Hc. unfold contract in Hc.
  apply init_returns_iff_helper in Hc.
  destruct Hc as [to' [Hn' [_ [_ [_ [_ [_ [_ ->]]]]]]]].
  rewrite Hn in Hn'. injection Hn' as <-.
  split; [reflexivity|].
  assert (Hb : to_is_blank
                 (mkTransaction nonce gasprice startgas [] endowment code
                                v r s None None) = true) by reflexivity.
  split.
  - now rewrite (creates_blank _ Hb).
  - intros -> ->. rewrite (creates_blank _ Hb). reflexivity.
Qed.

(** ** The dictionary views *)

Lemma dict_get_set (d : dict) (k k' : string) (x : dval) :
  dict_get (dict_set d k x) k' =
    if String.eqb k' k then Some x else dict_get d k'.
Proof.
  induction d as [|[k0 y] d IH]; cbn [dict_set dict_get].
  - reflexivity.
  - destruct (String.eqb_spec k k0) as [->|Hk]; cbn [dict_get].
    + destruct (String.eqb k' k0); reflexivity.
    + rewrite IH. destruct (String.eqb_spec k' k0) as [->|Hk'].
      * destruct (String.eqb_spec k0 k); [congruence | reflexivity].
      * reflexivity.
Qed.

Lemma dict_set_keys (d : dict) (k : string) (x : dval) :
  dict_get d k <> None -> map fst (dict_set d k x) = map fst d.
Proof.
  induction d as [|[k0 y] d IH]; cbn [dict_set dict_get map fst].
  - congruence.
  - destruct (String.eqb k k0); cbn [map fst]; [reflexivity|].
    intros Hk. now rewrite IH.
Qed.

Lemma update_entry_get (f : bytes -> bytes) (d : dict) (k k' : string) :
  dict_get (update_entry f d k) k' =
    if String.eqb k' k then
      match dict_get d k with
      | Some (DBytes b) => Some (DBytes (f b))
      | o => o
      end
    else dict_get d k'.
Proof.
  unfold update_entry.
  destruct (dict_get d k) as [[n|b]|] eqn:Hk.
  - destruct (String.eqb_spec k' k) as [->|]; [now rewrite Hk | reflexivity].
  - apply dict_get_set.
  - destruct (String.eqb_spec k' k) as [->|]; [now rewrite Hk | reflexivity].
Qed.

Lemma update_entry_keys (f : bytes -> bytes) (d : dict) (k : string) :
  map fst (update_entry f d k) = map fst d.
Proof.
  unfold update_entry.
  destruct (dict_get d k) as [[n|b]|] eqn:Hk; try reflexivity.
  apply dict_set_keys. congruence.
Qed.

(** [to_dict] in terms of [sender]. *)
Lemma to_dict_cases (encode_hex : bytes -> bytes) (t : Transaction) :
  to_dict encode_hex t =
    match sender t with
    | (Return a, t') =>
        (Return (dict_set (dict_set (fields_dict t) "sender" (DBytes a))
                          "hash" (DBytes (encode_hex (hash t)))), t')
    | (Raise e, t') => (Raise e, t')
    end.
Proof.
  unfold to_dict, bind, get, ret.
  pose proof (sender_writes_two_attributes t) as [x [y Hs]].
  destruct (sender t) as [[a|e] t']; [|reflexivity].
  cbn [snd] in Hs. subst t'. reflexivity.
Qed.

(** [to_dict] reads [sender]: it raises the error [sender] raises, and
    otherwise leaves the object as [sender] does and returns a dictionary
    of eleven keys, holding the nine fields as stored, the sender that
    was read and the hexadecimal text of the hash. *)
Theorem to_dict_entries (encode_hex : bytes -> bytes) (t : Transaction) :
  match sender t with
  | (Raise e, t') => to_dict encode_hex t = (Raise e, t')
  | (Return a, t') =>
      exists d,
        to_dict encode_hex t = (Return d, t') /\
        map fst d =
          ["nonce"; "gasprice"; "startgas"; "to"; "value"; "data"; "v"; "r";
           "s"; "sender"; "hash"]%string /\
        dict_get d "nonce" = Some (DInt (nonce t)) /\
        dict_get d "gasprice" = Some (DInt (gasprice t)) /\
        dict_get d "startgas" = Some (DInt (startgas t)) /\
        dict_get d "to" = Some (DBytes (to t)) /\
        dict_get d "value" = Some (DInt (value t)) /\
        dict_get d "data" = Some (DBytes (data t)) /\
        dict_get d "v" = Some (DInt (v t)) /\
        dict_get d "r" = Some (DInt (r t)) /\
        dict_get d "s" = Some (DInt (s t)) /\
        dict_get d "sender" = Some (DBytes a) /\
        dict_get d "hash" = Some (DBytes (encode_hex (hash t)))
  end.
Proof.
  rewrite to_dict_cases.
  destruct (sender t) as [[a|e] t']; [|reflexivity].
  eexists. split; [reflexivity|]. repeat split.
Qed.

(** [log_dict] fails where [to_dict] fails.  Where [to_dict] returns, it
    returns the same keys; the entries of [sender], [to] and [data] are
    the hexadecimal texts of those of [to_dict], and every other entry is
    the one of [to_dict]. *)
Theorem log_dict_entries (encode_hex : bytes -> bytes) (t : Transaction) :
  match to_dict encode_hex t with
  | (Raise e, t') => log_dict encode_hex t = (Raise e, t')
  | (Return d, t') =>
      exists d',
        log_dict encode_hex t = (Return d', t') /\
        map fst d' = map fst d /\
        (forall k b,
           (k = "sender" \/ k = "to" \/ k = "data")%string ->
           dict_get d k = Some (DBytes b) ->
           dict_get d' k = Some (DBytes (encode_hex b))) /\
        (forall k,
           k <> "sender"%string -> k <> "to"%string -> k <> "data"%string ->
           dict_get d' k = dict_get d k)
  end.
Proof.
  unfold log_dict, bind, ret.
  destruct (to_dict encode_hex t) as [[d|e] t']; [|reflexivity].
  eexists. split; [reflexivity|]. split; [|split].
  - now rewrite !update_entry_keys.
  - intros k b Hk Hd. rewrite !update_entry_get.
    destruct Hk as [-> | [-> | ->]]; cbn [String.eqb Ascii.eqb Bool.eqb];
      rewrite ?update_entry_get; cbn [String.eqb Ascii.eqb Bool.eqb];
      rewrite Hd; try reflexivity.
    destruct b; reflexivity.
  - intros k H1 H2 H3. rewrite !update_entry_get.
    apply String.eqb_neq in H1, H2, H3. now rewrite H1, H2, H3.
Qed.

End MoreProperties.

(** * The further properties on concrete transactions *)

Lemma fixed_width_length (k : nat) (n : N) :
  length (Sample.fixed_width k n) = k.
Proof.
  unfold Sample.fixed_width.
  rewrite length_skipn, length_app, repeat_length. lia.
Qed.

Lemma sender_errors_witness :
  InvalidTransaction "Invalid signature values!" =
    InvalidTransaction "Invalid V value" \/
  InvalidTransaction "Invalid signature values!" =
    InvalidTransaction "Invalid signature values!" \/
  InvalidTransaction "Invalid signature values!" =
    InvalidTransaction "Invalid signature (zero privkey cannot sign)".
Proof.
  apply (@sender_errors Sample.collaborators Sample.tx_bad_rs).
  vm_compute. reflexivity.
Defined.

Lemma sender_address_length_witness :
  exists a t',
    @sender Paired.collaborators Paired.tx_legacy = (Return a, t') /\
    length a = 20%nat /\ _sender t' = Some a.
Proof.
  eexists _, _. split; [vm_compute; reflexivity|].
  apply (@sender_address_length Paired.collaborators Paired.tx_legacy).
  - intros x. cbn [sha3 Paired.collaborators]. unfold Sample.digest.
    rewrite fixed_width_length. lia.
  - reflexivity.
  - vm_compute. reflexivity.
Defined.


Lemma sign_leaves_network_id_stale_witness :
  network_id
    (snd (@sender Sample.collaborators
            (snd (@sign Sample.collaborators (PBytes Sample.key1) (Some 1)
                    Sample.tx0)))) = None.
Proof.
  apply (@sign_leaves_network_id_stale Sample.collaborators Sample.tx0
           Sample.key1 1).
  - reflexivity.
  - split; [lia | reflexivity].
  - vm_compute. discriminate.
Defined.

Lemma sign_hex_key_witness :
  @sign Sample.collaborators (PBytes Paired.hex_key) None Sample.tx0 =
  @sign Sample.collaborators (PBytes (repeat x11 32)) None Sample.tx0.
Proof.
  apply (@sign_hex_key Sample.collaborators Sample.tx0 Paired.hex_key None).
  - reflexivity.
  - vm_compute. discriminate.
  - reflexivity.
  - reflexivity.
Defined.

Lemma v_encode_decode_witness :
  37 <= 37 < 2 ^ 64 /\ in_27_28 37 = false /\
  network_id_of_v 37 = 1 /\ vee_of_v 37 = 27.
Proof.
  apply (@v_encode_decode 27 1).
  - left. reflexivity.
  - split; [lia | reflexivity].
Defined.

Lemma v_decode_encode_witness :
  38 = vee_of_v 38 + (8 + network_id_of_v 38 * 2) /\ 1 <= network_id_of_v 38.
Proof.
  apply (@v_decode_encode 38). lia.
Defined.

Lemma sign_then_recover_witness :
  exists t1,
    @sign Paired.collaborators (PBytes Sample.key1) (Some 1) Sample.tx0 =
      (Return tt, t1) /\
    fst (@sender Paired.collaborators (with_sender None t1)) =
      Return (Paired.paired_address Sample.key1).
Proof.
  apply (@sign_then_recover Paired.collaborators Sample.tx0 Sample.key1
           (Some 1)).
  - reflexivity.
  - split; [lia | reflexivity].
  - intros c _. reflexivity.
  - vm_compute. right. reflexivity.
  - vm_compute. split; reflexivity.
  - vm_compute. split; reflexivity.
  - vm_compute. discriminate.
  - vm_compute. reflexivity.
Defined.

Lemma low_s_then_sender_witness :
  fst (@sender Paired.collaborators Paired.tx_legacy) =
    @after_recovery Paired.collaborators
      (Paired.paired_recover
         (@recovery_hash Paired.collaborators Paired.tx_legacy) 27 5 7).
Proof.
  apply (@low_s_then_sender Paired.collaborators Paired.tx_legacy).
  - vm_compute. reflexivity.
  - vm_compute. split; reflexivity.
  - left. reflexivity.
  - reflexivity.
Defined.

Lemma intrinsic_gas_bounds_witness :
  21000 + 4 * 2 <= @intrinsic_gas_used_of Sample.collaborators [x00; x01] /\
  @intrinsic_gas_used_of Sample.collaborators [x00; x01] <= 21000 + 68 * 2.
Proof.
  apply (@intrinsic_gas_bounds Sample.collaborators [x00; x01]).
  vm_compute. discriminate.
Defined.

Lemma contract_creates_witness :
  exists t,
    @contract Sample.collaborators 3 1 21000 0 [] 0 0 0 = Return t /\
    to t = [] /\
    fst (@creates Sample.collaborators t) =
      Return (Some (Sample.contract_address (repeat xff 20) 3)).
Proof.
  eexists. split; [reflexivity|].
  destruct (@contract_creates Sample.collaborators 3 1 21000 0 [] 0 0 0
              (mkTransaction 3 1 21000 [] 0 [] 0 0 0 None None))
    as [Hto [_ Hnull]].
  - reflexivity.
  - reflexivity.
  - split; [exact Hto|]. apply Hnull; reflexivity.
Defined.
